(** * HMPI dashboard: scoring, chart aggregation and data access

    A shallow embedding of [utils/data.ts] (record types, the data-access
    functions, [calculateHMPI], [getRiskLevel]) and of the chart
    computations of the project analytics page ([samplesWithHMPI],
    [riskChartData], [metalChartData], [timeSeriesData]), with the page's
    [loadData] and its choice of view.

    JavaScript numbers are IEEE-754 binary64 values: they are embedded as
    Rocq's primitive floats, whose operations are the binary64 ones with
    round-to-nearest-even, and whose comparisons answer [false] on NaN.
    Counts and time values are integers that a number holds exactly; they
    are embedded as [Z].  The store behind the data-access functions is a
    parameter of these functions. *)

From Stdlib Require Import ZArith Lia List Floats Permutation Sorted.
From Stdlib Require Import Ascii String DecimalString Bool.
Import ListNotations.

Set Warnings "-inexact-float".
Local Open Scope string_scope.
Local Open Scope list_scope.
Local Open Scope Z_scope.

(** ** JavaScript numbers *)

Module JS.

Abbreviation number := float.

(** [floor (m / 2^k + 1/2)] for an integer [m] and [k >= 0], in exact
    integer arithmetic: the integer closest to [m / 2^k], a tie going to
    the larger one. *)
Definition half_up (m k : Z) : Z := (2 * m + 2 ^ k) / 2 ^ (k + 1).

(** An integer of magnitude below 2^53 as a number (exact). *)
Definition of_int (n : Z) : number :=
  if n <? 0
  then PrimFloat.opp (PrimFloat.of_uint63 (Uint63.of_Z (- n)))
  else PrimFloat.of_uint63 (Uint63.of_Z n).

Definition signed_zero (s : bool) : number :=
  if s then PrimFloat.neg_zero else PrimFloat.zero.

Definition signed (s : bool) (m : positive) : Z :=
  if s then Z.neg m else Z.pos m.

(** [Math.round]: NaN, the infinities and the zeros are returned as they
    are; a finite [x = (-1)^s * m * 2^e] is integral already when
    [e >= 0]; otherwise the result is the integer closest to [x], ties
    toward +infinity, and it is [-0] when that integer is 0 and [x < 0]. *)
Definition Math_round (x : number) : number :=
  match Prim2SF x with
  | S754_finite s m e =>
      if 0 <=? e then x
      else
        let n := half_up (signed s m) (- e) in
        if n =? 0 then signed_zero s else of_int n
  | _ => x
  end.

(** The rule a specification calls round-half-away-from-zero: the
    integer closest to [x], a tie going to the one of larger magnitude. *)
Definition round_half_away_from_zero (x : number) : number :=
  match Prim2SF x with
  | S754_finite s m e =>
      if 0 <=? e then x
      else
        let n := half_up (Z.pos m) (- e) in
        if n =? 0 then signed_zero s
        else if s then PrimFloat.opp (of_int n) else of_int n
  | _ => x
  end.

(** [x] is negative and lies exactly half way between two integers. *)
Definition negative_tie (x : number) : bool :=
  match Prim2SF x with
  | S754_finite true m e =>
      (e <? 0) && ((2 * Z.pos m + 2 ^ (- e)) mod 2 ^ (- e + 1) =? 0)
  | _ => false
  end.

End JS.

(** ** Record types of [utils/data.ts] *)

Record Sample := {
  id : string;
  projectId : string;
  sampleId : string;
  metal : string;
  Si : JS.number;
  Ii : JS.number;
  Mi : JS.number;
  latitude : JS.number;
  longitude : JS.number;
  district : string;
  city : string;
  date : string
}.

Record RiskLevel := { level : string; color : string }.

(** ** Scoring *)

(** [const hmpi = (Si / Ii) * Mi * 100] *)
Definition hmpi_index (sample : Sample) : JS.number :=
  ((Si sample / Ii sample) * Mi sample * 100)%float.

(** [return Math.round(hmpi * 100) / 100] *)
Definition calculateHMPI (sample : Sample) : JS.number :=
  let hmpi := hmpi_index sample in
  (JS.Math_round (hmpi * 100) / 100)%float.

Definition getRiskLevel (hmpi : JS.number) : RiskLevel :=
  if (100 <=? hmpi)%float then {| level := "Very High Risk"; color := "#DC2626" |}
  else if (50 <=? hmpi)%float then {| level := "High Risk"; color := "#EA580C" |}
  else if (25 <=? hmpi)%float then {| level := "Moderate Risk"; color := "#D97706" |}
  else if (10 <=? hmpi)%float then {| level := "Low Risk"; color := "#65A30D" |}
  else {| level := "Safe"; color := "#059669" |}.

Definition mkSample (m : string) (si ii mi : JS.number) (d : string) : Sample :=
  {| id := ""; projectId := ""; sampleId := ""; metal := m;
     Si := si; Ii := ii; Mi := mi; latitude := 0%float; longitude := 0%float;
     district := ""; city := ""; date := d |}.


(** ** Objects

    The own properties of an object, in creation order. *)

Module JSObject.

Definition t (V : Type) : Type := list (string * V).

Definition empty {V : Type} : t V := [].

(** The names of the own properties, in creation order. *)
Definition keys {V : Type} (o : t V) : list string := map fst o.

(** The own property [k] of [o], if there is one. *)
Fixpoint get {V : Type} (o : t V) (k : string) : option V :=
  match o with
  | [] => None
  | (k', v) :: o' => if String.eqb k' k then Some v else get o' k
  end.

(** The own property [k] set to [v]: an existing property keeps its place,
    a new one comes last. *)
Fixpoint set {V : Type} (o : t V) (k : string) (v : V) : t V :=
  match o with
  | [] => [(k, v)]
  | (k', v') :: o' =>
      if String.eqb k' k then (k', v) :: o' else (k', v') :: set o' k v
  end.

Definition is_digit (c : Ascii.ascii) : bool :=
  let n := Ascii.N_of_ascii c in ((48 <=? n) && (n <=? 57))%N.

Fixpoint decimal (s : string) (acc : N) : option N :=
  match s with
  | EmptyString => Some acc
  | String c s' =>
      if is_digit c
      then decimal s' (10 * acc + (Ascii.N_of_ascii c - 48))%N
      else None
  end.

(** A key is an array index when it is the canonical decimal form of an
    integer below 2^32 - 1. *)
Definition array_index (k : string) : option N :=
  match k with
  | EmptyString => None
  | String c rest =>
      if Ascii.eqb c "0"%char
      then (match rest with EmptyString => Some 0%N | _ => None end)
      else match decimal k 0 with
           | Some n => if (n <? 4294967295)%N then Some n else None
           | None => None
           end
  end.

Definition is_index {V : Type} (p : string * V) : bool :=
  match array_index (fst p) with Some _ => true | None => false end.

Definition index_of {V : Type} (p : string * V) : N :=
  match array_index (fst p) with Some n => n | None => 0%N end.

Fixpoint insert_by_index {V : Type} (p : string * V) (l : t V) : t V :=
  match l with
  | [] => [p]
  | q :: l' =>
      if (index_of p <=? index_of q)%N then p :: q :: l'
      else q :: insert_by_index p l'
  end.

(** [Object.entries(o)]: array-index keys in ascending numeric order, then
    the other keys in creation order. *)
Definition entries {V : Type} (o : t V) : list (string * V) :=
  fold_right insert_by_index [] (List.filter is_index o)
  ++ List.filter (fun p => negb (is_index p)) o.

End JSObject.

(** ** Chart data of the analytics page *)

(** An element of [samplesWithHMPI]: [{...sample, hmpi, riskLevel}]. *)
Record ScoredSample := {
  sample : Sample;
  hmpi : JS.number;
  riskLevel : RiskLevel
}.

Definition samplesWithHMPI (projectSamples : list Sample) : list ScoredSample :=
  map (fun sample =>
         {| sample := sample;
            hmpi := calculateHMPI sample;
            riskLevel := getRiskLevel (calculateHMPI sample) |})
      projectSamples.

(** *** Counter objects

    The two distributions are built in [{} as Record<string, number>], a
    plain object: a key that it does not own is looked up in
    [Object.prototype]. *)

(** The property names of [Object.prototype]. *)
Definition Object_prototype : list string :=
  [ "constructor"; "__defineGetter__"; "__defineSetter__"; "hasOwnProperty";
    "__lookupGetter__"; "__lookupSetter__"; "isPrototypeOf";
    "propertyIsEnumerable"; "toString"; "valueOf"; "__proto__";
    "toLocaleString" ].

Definition inherited (k : string) : bool :=
  existsb (String.eqb k) Object_prototype.

(** What [acc[k]] can be: a count (an integer below the length bound of an
    array, held exactly by a number), the object that [Object.prototype]
    holds under a name, or the string that [+ 1] makes of it, which is the
    text of that object followed by a suffix. *)
Inductive Counter :=
| Count (n : Z)
| Inherited (name : string)
| Text (name suffix : string).

(** [acc[k]], [None] standing for [undefined]. *)
Definition lookup (acc : JSObject.t Counter) (k : string) : option Counter :=
  match JSObject.get acc k with
  | Some v => Some v
  | None => if inherited k then Some (Inherited k) else None
  end.

(** [x || 0]: [undefined] and 0 are falsy, an object and a string that is
    not empty are truthy. *)
Definition or_zero (x : option Counter) : Counter :=
  match x with
  | Some (Count n) => if n =? 0 then Count 0 else Count n
  | Some v => v
  | None => Count 0
  end.

(** [x + 1]: addition on a number; an object is first turned into its text,
    and a text gets ["1"] appended. *)
Definition plus_one (x : Counter) : Counter :=
  match x with
  | Count n => Count (n + 1)
  | Inherited name => Text name "1"
  | Text name suffix => Text name (suffix ++ "1")
  end.

(** [acc[k] = v] for a [v] that is not an object: the setter that
    [Object.prototype] has for [__proto__] ignores it; any other key becomes
    or stays an own property. *)
Definition assign (acc : JSObject.t Counter) (k : string) (v : Counter)
  : JSObject.t Counter :=
  if String.eqb k "__proto__" then acc else JSObject.set acc k v.

(** [x || '#666'] on a string that may be [undefined]. *)
Definition or_grey (x : option string) : string :=
  match x with
  | Some EmptyString => "#666"
  | Some c => c
  | None => "#666"
  end.

(** The reducer of the two distributions, for a key read off each element:
    [acc[key] = (acc[key] || 0) + 1]. *)
Definition count_step {A : Type} (key : A -> string)
    (acc : JSObject.t Counter) (x : A) : JSObject.t Counter :=
  assign acc (key x) (plus_one (or_zero (lookup acc (key x)))).

(** The number of elements of a list with a given key. *)
Definition occurrences {A : Type} (key : A -> string) (k : string) (l : list A) : Z :=
  Z.of_nat (List.length (List.filter (fun x => String.eqb (key x) k) l)).

Definition riskDistribution (scored : list ScoredSample) : JSObject.t Counter :=
  fold_left
    (fun acc sample =>
       let level := level (riskLevel sample) in
       assign acc level (plus_one (or_zero (lookup acc level))))
    scored JSObject.empty.

Definition riskLevels : list string :=
  ["Safe"; "Low Risk"; "Moderate Risk"; "High Risk"; "Very High Risk"].

Record RiskChartEntry := {
  risk_name : string;
  risk_value : Counter;
  risk_color : string
}.

Definition riskChartData (scored : list ScoredSample) : list RiskChartEntry :=
  map (fun lvl =>
         {| risk_name := lvl;
            risk_value := or_zero (lookup (riskDistribution scored) lvl);
            risk_color :=
              or_grey (option_map (fun s => color (riskLevel s))
                         (find (fun s => String.eqb (level (riskLevel s)) lvl) scored)) |})
      riskLevels.

Definition metalDistribution (scored : list ScoredSample) : JSObject.t Counter :=
  fold_left
    (fun acc s =>
       assign acc (metal (sample s))
         (plus_one (or_zero (lookup acc (metal (sample s))))))
    scored JSObject.empty.

Record MetalChartEntry := {
  metal_name : string;
  metal_count : Counter;
  avgHMPI : JS.number
}.

(** [xs.reduce((sum, s) => sum + s.hmpi, 0)] *)
Definition sum_hmpi (xs : list ScoredSample) : JS.number :=
  fold_left (fun sum s => (sum + hmpi s)%float) xs 0%float.

Definition with_metal (m : string) (scored : list ScoredSample) : list ScoredSample :=
  List.filter (fun s => String.eqb (metal (sample s)) m) scored.

Definition metalChartData (scored : list ScoredSample) : list MetalChartEntry :=
  map (fun '(m, count) =>
         {| metal_name := m;
            metal_count := count;
            avgHMPI :=
              (sum_hmpi (with_metal m scored)
               / JS.of_int (Z.of_nat (List.length (with_metal m scored))))%float |})
      (JSObject.entries (metalDistribution scored)).

(** The arithmetic mean of a list of numbers, summed from the left. *)
Definition mean (xs : list JS.number) : JS.number :=
  (fold_left PrimFloat.add xs 0 / JS.of_int (Z.of_nat (List.length xs)))%float.

(** *** Time series *)

Record TimePoint := { point_date : string; point_hmpi : JS.number }.

Section TimeSeries.

(** [new Date(s).getTime()]: the time value of the date string in
    milliseconds, or [None] for the NaN of an invalid date. *)
Variable getTime : string -> option Z.

(** The comparator [(a, b) => new Date(a.date).getTime() - new
    Date(b.date).getTime()].  Time values are integers of magnitude at most
    8.64e15, so the sign of the binary64 difference is the sign of the exact
    one; [None] is NaN. *)
Definition by_date (a b : ScoredSample) : option Z :=
  match getTime (date (sample a)), getTime (date (sample b)) with
  | Some ta, Some tb => Some (ta - tb)
  | _, _ => None
  end.

(** [Array.prototype.sort] reads a NaN from the comparator as +0. *)
Definition sort_compare {A : Type} (comparefn : A -> A -> option Z) (x y : A) : Z :=
  match comparefn x y with
  | Some v => v
  | None => 0
  end.

Fixpoint sort_insert {A : Type} (comparefn : A -> A -> option Z) (x : A) (l : list A) : list A :=
  match l with
  | [] => [x]
  | y :: l' =>
      if 0 <? sort_compare comparefn x y
      then y :: sort_insert comparefn x l'
      else x :: y :: l'
  end.

(** [xs.sort(comparefn)]: a stable sort.  For a consistent comparator the
    result is determined by the language specification whatever algorithm
    the host runs; insertion from the right is one such algorithm.  For a
    comparator that is not consistent ([by_date] on a list with a date that
    does not parse and two dates that differ) the language leaves the order
    to the host: this definition then gives the order of an insertion sort,
    which need not be every host's. *)
Definition Array_sort {A : Type} (comparefn : A -> A -> option Z) (xs : list A) : list A :=
  fold_right (sort_insert comparefn) [] xs.

(** [s => ({ date: s.date, hmpi: s.hmpi })] *)
Definition time_point (s : ScoredSample) : TimePoint :=
  {| point_date := date (sample s); point_hmpi := hmpi s |}.

Definition timeSeriesData (scored : list ScoredSample) : list TimePoint :=
  map time_point (Array_sort by_date scored).

(** Ascending order of two points by the time of their dates. *)
Definition time_le (p q : TimePoint) : Prop :=
  match getTime (point_date p), getTime (point_date q) with
  | Some tp, Some tq => tp <= tq
  | _, _ => False
  end.

(** The points of a list that are dated at a given time, in their order. *)
Definition dated_at (t : Z) (points : list TimePoint) : list TimePoint :=
  List.filter
    (fun p => match getTime (point_date p) with
              | Some t' => t' =? t
              | None => false
              end)
    points.

(** The date of a sample parses. *)
Definition valid_date (s : ScoredSample) : Prop :=
  getTime (date (sample s)) <> None.

End TimeSeries.

(** A date parser for the examples: the date-only ISO form [YYYY-MM-DD] of
    an existing day, read as midnight UTC as the language has it, and
    [None] for the empty string, which no host parses.  It also answers
    [None] on every other string, among them forms that [new Date] does
    parse (timestamps, [YYYY], [YYYY-MM], and on some hosts a day past the
    end of its month); the examples use no such string, and the general
    statements take the parser as a parameter. *)
Module IsoDate.

Definition digit (c : Ascii.ascii) : option Z :=
  if JSObject.is_digit c then Some (Z.of_N (Ascii.N_of_ascii c) - 48) else None.

Definition number2 (a b : Ascii.ascii) : option Z :=
  match digit a, digit b with
  | Some x, Some y => Some (10 * x + y)
  | _, _ => None
  end.

Definition is_leap (y : Z) : bool :=
  ((y mod 4 =? 0) && negb (y mod 100 =? 0)) || (y mod 400 =? 0).

Definition days_in_month (y m : Z) : Z :=
  if m =? 2 then (if is_leap y then 29 else 28)
  else if (m =? 4) || (m =? 6) || (m =? 9) || (m =? 11) then 30
  else 31.

(** Days from 1970-01-01 to the given civil date. *)
Definition days_from_civil (y m d : Z) : Z :=
  let y' := if m <=? 2 then y - 1 else y in
  let era := y' / 400 in
  let yoe := y' - era * 400 in
  let mp := (m + 9) mod 12 in
  let doy := (153 * mp + 2) / 5 + d - 1 in
  let doe := yoe * 365 + yoe / 4 - yoe / 100 + doy in
  era * 146097 + doe - 719468.

Definition getTime (s : string) : option Z :=
  match s with
  | String y1 (String y2 (String y3 (String y4 (String "-"%char
      (String m1 (String m2 (String "-"%char (String d1 (String d2 EmptyString))))))))) =>
      match number2 y1 y2, number2 y3 y4, number2 m1 m2, number2 d1 d2 with
      | Some yh, Some yl, Some m, Some d =>
          let y := 100 * yh + yl in
          if (1 <=? m) && (m <=? 12) && (1 <=? d) && (d <=? days_in_month y m)
          then Some (days_from_civil y m d * 86400000)
          else None
      | _, _, _, _ => None
      end
  | _ => None
  end.

End IsoDate.

(** ** Data access ([utils/data.ts])

    At run time a record is the object the store returned; the interfaces
    [Project], [Alert] and [Policy] are compile-time views of such
    objects. *)

#[warnings="-register-all"]
Inductive Json :=
| JNull
| JBool (b : bool)
| JNum (n : JS.number)
| JStr (s : string)
| JArr (items : list Json)
| JObj (fields : list (string * Json)).

Abbreviation Row := (JSObject.t Json).

Record PostgrestError := {
  message : string;
  details : string;
  hint : string;
  code : string
}.

(** What a query resolves to: [{ data, error }] with exactly one of the two
    non-null. *)
Inductive Response :=
| Success (data : list Row)
| Failure (error : PostgrestError).

(** The three query shapes the module builds. *)
Inductive Query :=
| Select (table columns : string)
    (* supabase.from(table).select(columns) *)
| Insert (table : string) (rows : list Row)
    (* supabase.from(table).insert(rows).select() *)
| UpdateEq (table : string) (patch : Row) (column value : string).
    (* supabase.from(table).update(patch).eq(column, value).select() *)

Inductive Outcome (A : Type) :=
| Returned (a : A)
| Thrown (e : PostgrestError).

Arguments Returned {A} a.
Arguments Thrown {A} e.

Record World (Store : Type) := {
  store : Store;
  console : list (string * PostgrestError)
}.

Arguments store {Store} w.
Arguments console {Store} w.

(** An asynchronous function: it runs against the store and the console and
    either returns or throws. *)
Definition Async (Store A : Type) : Type :=
  World Store -> Outcome A * World Store.

Section DataAccess.

Context {Store : Type}.

(** The client of [lib/supabaseClient]: awaiting a query gives a response
    and the store after it. *)
Variable supabase : Query -> Store -> Response * Store.

Definition ret {A : Type} (a : A) : Async Store A :=
  fun w => (Returned a, w).

Definition throw {A : Type} (e : PostgrestError) : Async Store A :=
  fun w => (Thrown e, w).

Definition bind {A B : Type} (m : Async Store A) (k : A -> Async Store B) : Async Store B :=
  fun w =>
    match m w with
    | (Returned a, w') => k a w'
    | (Thrown e, w') => (Thrown e, w')
    end.

Definition console_error (msg : string) (e : PostgrestError) : Async Store unit :=
  fun w => (Returned tt, {| store := store w; console := console w ++ [(msg, e)] |}).

Definition await (q : Query) : Async Store Response :=
  fun w =>
    let (r, s') := supabase q (store w) in
    (Returned r, {| store := s'; console := console w |}).

Notation "'let*' x ':=' m 'in' k" := (bind m (fun x => k))
  (at level 10, x name, m at level 100, k at level 200).
Notation "m '>>' k" := (bind m (fun _ => k))
  (at level 100, k at level 200, right associativity).

Definition fetchProjects : Async Store (list Row) :=
  let* r := await (Select "projects" "*") in
  match r with
  | Failure error => console_error "Error fetching projects:" error >> ret []
  | Success data => ret data
  end.

Definition fetchSamples : Async Store (list Row) :=
  let* r := await (Select "samples" "*") in
  match r with
  | Failure error => console_error "Error fetching samples:" error >> ret []
  | Success data => ret data
  end.

Definition fetchAlerts : Async Store (list Row) :=
  let* r := await (Select "alerts" "*") in
  match r with
  | Failure error => console_error "Error fetching alerts:" error >> ret []
  | Success data => ret data
  end.

Definition fetchPolicies : Async Store (list Row) :=
  let* r := await (Select "policies" "*") in
  match r with
  | Failure error => console_error "Error fetching policies:" error >> ret []
  | Success data => ret data
  end.

Definition createProject (projectData : Row) : Async Store (list Row) :=
  let* r := await (Insert "projects" [projectData]) in
  match r with
  | Failure error => console_error "Error creating project:" error >> throw error
  | Success data => ret data
  end.

Definition createSample (sampleData : Row) : Async Store (list Row) :=
  let* r := await (Insert "samples" [sampleData]) in
  match r with
  | Failure error => console_error "Error creating sample:" error >> throw error
  | Success data => ret data
  end.

Definition acknowledgeAlert (alertId : string) : Async Store (list Row) :=
  let* r := await (UpdateEq "alerts" [("acknowledged", JBool true)] "id" alertId) in
  match r with
  | Failure error => console_error "Error acknowledging alert:" error >> throw error
  | Success data => ret data
  end.

Definition createPolicy (policyData : Row) : Async Store (list Row) :=
  let* r := await (Insert "policies" [policyData]) in
  match r with
  | Failure error => console_error "Error creating policy:" error >> throw error
  | Success data => ret data
  end.

Definition updateProjectThreshold (projectId : string) (thresholds : list (string * Json))
  : Async Store (list Row) :=
  let* r := await (UpdateEq "projects" [("policyMakerThresholds", JObj thresholds)] "id" projectId) in
  match r with
  | Failure error =>
      console_error "Error updating project threshold:" error >> throw error
  | Success data => ret data
  end.

(** The two error policies, as contracts of a function that awaits one
    query [q] and reports under [msg]. *)
Definition swallows_errors (f : Async Store (list Row)) (q : Query) (msg : string) : Prop :=
  forall w,
    match supabase q (store w) with
    | (Failure e, s') =>
        f w = (Returned [], {| store := s'; console := console w ++ [(msg, e)] |})
    | (Success rows, s') =>
        f w = (Returned rows, {| store := s'; console := console w |})
    end.

Definition propagates_errors (f : Async Store (list Row)) (q : Query) (msg : string) : Prop :=
  forall w,
    match supabase q (store w) with
    | (Failure e, s') =>
        f w = (Thrown e, {| store := s'; console := console w ++ [(msg, e)] |})
    | (Success rows, s') =>
        f w = (Returned rows, {| store := s'; console := console w |})
    end.

(** A function that returns whatever the store answers. *)
Definition never_throws (f : Async Store (list Row)) : Prop :=
  forall w, exists rows w', f w = (Returned rows, w').

(** A function that throws in exactly the runs where query [q] fails. *)
Definition throws_exactly_on_error (f : Async Store (list Row)) (q : Query) : Prop :=
  forall w,
    (exists e w', f w = (Thrown e, w'))
    <-> (exists e s', supabase q (store w) = (Failure e, s')).

End DataAccess.

(** Modelled from the spec: the external tabular store behind the client of
    [lib/supabaseClient], which is not part of the sources.  Four named
    collections; select returns a collection; insert appends the records
    with a server-assigned [id] where none is given and returns them;
    update-by-equality sets the fields of the patch on every record whose
    column equals the value and returns the records it updated; a query on
    another collection is answered with an error. *)
Module TableStore.

Record t := {
  projects : list Row;
  samples : list Row;
  alerts : list Row;
  policies : list Row;
  next_id : N
}.

Definition table (name : string) (s : t) : option (list Row) :=
  if String.eqb name "projects" then Some (projects s)
  else if String.eqb name "samples" then Some (samples s)
  else if String.eqb name "alerts" then Some (alerts s)
  else if String.eqb name "policies" then Some (policies s)
  else None.

Definition with_table (name : string) (rows : list Row) (s : t) : t :=
  if String.eqb name "projects" then
    {| projects := rows; samples := samples s; alerts := alerts s;
       policies := policies s; next_id := next_id s |}
  else if String.eqb name "samples" then
    {| projects := projects s; samples := rows; alerts := alerts s;
       policies := policies s; next_id := next_id s |}
  else if String.eqb name "alerts" then
    {| projects := projects s; samples := samples s; alerts := rows;
       policies := policies s; next_id := next_id s |}
  else if String.eqb name "policies" then
    {| projects := projects s; samples := samples s; alerts := alerts s;
       policies := rows; next_id := next_id s |}
  else s.

Definition matches (column value : string) (row : Row) : bool :=
  match JSObject.get row column with
  | Some (JStr v) => String.eqb v value
  | _ => false
  end.

Definition patch_row (patch row : Row) : Row :=
  fold_left (fun r kv => JSObject.set r (fst kv) (snd kv)) patch row.

(** What an update does to one record. *)
Definition updated (patch : Row) (column value : string) (row : Row) : Row :=
  if matches column value row then patch_row patch row else row.

Definition assign_id (n : N) (row : Row) : Row :=
  match JSObject.get row "id" with
  | Some _ => row
  | None => JSObject.set row "id" (JStr (NilEmpty.string_of_uint (N.to_uint n)))
  end.

Fixpoint assign_ids (n : N) (rows : list Row) : list Row :=
  match rows with
  | [] => []
  | row :: rows' => assign_id n row :: assign_ids (N.succ n) rows'
  end.

Definition no_relation (name : string) : PostgrestError :=
  {| message := "relation does not exist"; details := name; hint := "";
     code := "42P01" |}.

Definition run (q : Query) (s : t) : Response * t :=
  match q with
  | Select name _ =>
      match table name s with
      | Some rows => (Success rows, s)
      | None => (Failure (no_relation name), s)
      end
  | Insert name rows =>
      match table name s with
      | Some old =>
          let new := assign_ids (next_id s) rows in
          let s' := with_table name (old ++ new) s in
          (Success new,
           {| projects := projects s'; samples := samples s'; alerts := alerts s';
              policies := policies s';
              next_id := (next_id s + N.of_nat (List.length rows))%N |})
      | None => (Failure (no_relation name), s)
      end
  | UpdateEq name patch column value =>
      match table name s with
      | Some old =>
          let new := map (updated patch column value) old in
          (Success (map (patch_row patch) (List.filter (matches column value) old)),
           with_table name new s)
      | None => (Failure (no_relation name), s)
      end
  end.

End TableStore.

(** The index rounded to 2 decimal places, half away from zero at the
    hundredths digit: the reading of the rounding rule that is compared with
    [calculateHMPI]. *)
Definition round_2dp_half_away (x : JS.number) : JS.number :=
  (JS.round_half_away_from_zero (x * 100) / 100)%float.

(** The five levels with their colors. *)
Definition Safe : RiskLevel := {| level := "Safe"; color := "#059669" |}.
Definition LowRisk : RiskLevel := {| level := "Low Risk"; color := "#65A30D" |}.
Definition ModerateRisk : RiskLevel := {| level := "Moderate Risk"; color := "#D97706" |}.
Definition HighRisk : RiskLevel := {| level := "High Risk"; color := "#EA580C" |}.
Definition VeryHighRisk : RiskLevel := {| level := "Very High Risk"; color := "#DC2626" |}.

(** The threshold table in descending order, and its first matching entry. *)
Definition risk_table : list (JS.number * RiskLevel) :=
  [ (100%float, VeryHighRisk); (50%float, HighRisk);
    (25%float, ModerateRisk); (10%float, LowRisk) ].

Definition first_match (x : JS.number) : RiskLevel :=
  match find (fun e => (fst e <=? x)%float) risk_table with
  | Some e => snd e
  | None => Safe
  end.

(** The levels in the order of the risk chart. *)
Definition chart_levels : list RiskLevel :=
  [Safe; LowRisk; ModerateRisk; HighRisk; VeryHighRisk].

(** The number of samples classified at a level. *)
Definition classified_at (lvl : string) (samples : list Sample) : Z :=
  Z.of_nat
    (List.length
       (List.filter
          (fun s => String.eqb (level (getRiskLevel (calculateHMPI s))) lvl)
          samples)).

(** The samples of a metal, in their order. *)
Definition of_metal (m : string) (samples : list Sample) : list Sample :=
  List.filter (fun s => String.eqb (metal s) m) samples.

(** An alert that has been acknowledged. *)
Definition acknowledged (row : Row) : Prop :=
  JSObject.get row "acknowledged" = Some (JBool true).

(** A client whose every query fails, and two stores, used as concrete
    inputs: [store1] is [store0] with alert [a1] acknowledged. *)
Definition timeout_error : PostgrestError :=
  {| message := "fetch failed"; details := ""; hint := ""; code := "" |}.

Definition offline (q : Query) (s : unit) : Response * unit :=
  (Failure timeout_error, s).

Definition alert_a1 : Row :=
  [("id", JStr "a1"); ("projectId", JStr "p1"); ("acknowledged", JBool false)].

Definition alert_a2 : Row :=
  [("id", JStr "a2"); ("projectId", JStr "p1"); ("acknowledged", JBool false)].

Definition project_p1 : Row :=
  [("id", JStr "p1"); ("name", JStr "Ganga");
   ("policyMakerThresholds", JObj [("HMPI", JNum 50); ("note", JStr "draft")])].

Definition project_p2 : Row :=
  [("id", JStr "p2"); ("name", JStr "Yamuna");
   ("policyMakerThresholds", JObj [("HMPI", JNum 60)])].

Definition alert_a1_acknowledged : Row :=
  [("id", JStr "a1"); ("projectId", JStr "p1"); ("acknowledged", JBool true)].

Definition store0 : TableStore.t :=
  {| TableStore.projects := [project_p1; project_p2];
     TableStore.samples := [];
     TableStore.alerts := [alert_a1; alert_a2];
     TableStore.policies := [];
     TableStore.next_id := 1%N |}.

Definition store1 : TableStore.t :=
  {| TableStore.projects := [project_p1; project_p2];
     TableStore.samples := [];
     TableStore.alerts := [alert_a1_acknowledged; alert_a2];
     TableStore.policies := [];
     TableStore.next_id := 1%N |}.

(** Samples used as concrete inputs. *)
Definition proto1 : Sample := mkSample "__proto__" 0.1 1 1 "2025-01-01".
Definition undated : Sample := mkSample "Lead" 0.4 1 1 "".
Definition lead10 : Sample := mkSample "Lead" 0.1 1 1 "2025-02-01".
Definition lead20 : Sample := mkSample "Lead" 0.2 1 1 "2025-01-01".
Definition lead30 : Sample := mkSample "Lead" 0.3 1 1 "2025-02-01".

(** ** The analytics page: loading and views

    The component keeps three pieces of state; [loadData] fills them from
    the two fetches, and the render function picks one of three views. *)

Record PageState := {
  project : option Row;
  projectSamples : list Row;
  loading : bool
}.

(** [useState(null)], [useState([])], [useState(true)] *)
Definition initialState : PageState :=
  {| project := None; projectSamples := []; loading := true |}.

Definition setProject (p : option Row) (st : PageState) : PageState :=
  {| project := p; projectSamples := projectSamples st; loading := loading st |}.

Definition setProjectSamples (rows : list Row) (st : PageState) : PageState :=
  {| project := project st; projectSamples := rows; loading := loading st |}.

Definition setLoading (b : bool) (st : PageState) : PageState :=
  {| project := project st; projectSamples := projectSamples st; loading := b |}.

(** [row[k] === v] for a string [v]. *)
Definition field_is (k v : string) (row : Row) : bool :=
  match JSObject.get row k with
  | Some (JStr s) => String.eqb s v
  | _ => false
  end.

Section AnalyticsPage.

Context {Store : Type}.
Variable supabase : Query -> Store -> Response * Store.

(** The body of the [try] block: the two fetches one after the other, then
    the selection of the project and of its samples. *)
Definition loadData_try (projectId : string)
  : Async Store (option Row * list Row) :=
  bind (fetchProjects supabase) (fun allProjects =>
  bind (fetchSamples supabase) (fun allSamples =>
  let selectedProject := find (field_is "id" projectId) allProjects in
  let filteredSamples := List.filter (field_is "projectId" projectId) allSamples in
  ret (selectedProject, filteredSamples))).

(** [loadData]: [setLoading(true)], the [try] block with its two setters,
    the [catch] block that logs, and [setLoading(false)] in [finally]. *)
Definition loadData (projectId : string) (st : PageState) (w : World Store)
  : PageState * World Store :=
  let st := setLoading true st in
  match loadData_try projectId w with
  | (Returned (selectedProject, filteredSamples), w') =>
      (setLoading false
         (setProjectSamples filteredSamples (setProject selectedProject st)),
       w')
  | (Thrown error, w') =>
      (setLoading false st,
       snd (console_error "Failed to fetch analytics data" error w'))
  end.

(** The effect: [if (projectId) { loadData(); }], an empty string being
    falsy. *)
Definition effect (projectId : string) (st : PageState) (w : World Store)
  : PageState * World Store :=
  if String.eqb projectId "" then (st, w) else loadData projectId st w.

End AnalyticsPage.

(** [loadData] over the two functions it imports, taken as any asynchronous
    functions.  A fetch of [utils/data.ts] has no [try] of its own: when the
    awaited query rejects instead of resolving to [{ data, error }], the
    fetch rejects with it, and the [catch] block of [loadData] is where the
    rejection ends. *)
Section LoadDataWith.

Context {Store : Type}.
Variables fetch_projects fetch_samples : Async Store (list Row).

Definition loadData_with (projectId : string) (st : PageState) (w : World Store)
  : PageState * World Store :=
  let st := setLoading true st in
  let try_block :=
    bind fetch_projects (fun allProjects =>
    bind fetch_samples (fun allSamples =>
    let selectedProject := find (field_is "id" projectId) allProjects in
    let filteredSamples := List.filter (field_is "projectId" projectId) allSamples in
    ret (selectedProject, filteredSamples))) in
  match try_block w with
  | (Returned (selectedProject, filteredSamples), w') =>
      (setLoading false
         (setProjectSamples filteredSamples (setProject selectedProject st)),
       w')
  | (Thrown error, w') =>
      (setLoading false st,
       snd (console_error "Failed to fetch analytics data" error w'))
  end.

End LoadDataWith.

(** The three things the component renders. *)
Inductive View :=
| Spinner
| ProjectNotFound
| Analytics (project : Row) (samples : list Row).

Definition render (st : PageState) : View :=
  if loading st then Spinner
  else match project st with
       | None => ProjectNotFound
       | Some p => Analytics p (projectSamples st)
       end.

(** What a fetch-all function returns for a response. *)
Definition rows_or_empty (r : Response) : list Row :=
  match r with
  | Success rows => rows
  | Failure _ => []
  end.

(** ** Measures used in the statements *)

(** The five levels from the least to the most severe. *)
Definition severity (r : RiskLevel) : Z :=
  if String.eqb (level r) "Very High Risk" then 4
  else if String.eqb (level r) "High Risk" then 3
  else if String.eqb (level r) "Moderate Risk" then 2
  else if String.eqb (level r) "Low Risk" then 1
  else 0.

(** The number a counter holds, if it holds one. *)
Definition counted (c : Counter) : option Z :=
  match c with
  | Count n => Some n
  | _ => None
  end.

Definition sum_counts (cs : list Counter) : Z :=
  fold_right (fun c total => match counted c with Some n => n + total | None => total end)
    0 cs.

(** The distinct strings of a list, in the order of their first
    occurrence. *)
Fixpoint first_seen (l : list string) : list string :=
  match l with
  | [] => []
  | k :: l' => k :: List.filter (fun k' => negb (String.eqb k' k)) (first_seen l')
  end.

(** A key that [Object.entries] leaves in creation order. *)
Definition plain_key (k : string) : bool :=
  match JSObject.array_index k with
  | Some _ => false
  | None => negb (inherited k)
  end.

(** The shape of a number: NaN or an infinity, a zero, or neither. *)
Definition not_finite (x : JS.number) : bool :=
  match Prim2SF x with
  | S754_nan | S754_infinity _ => true
  | _ => false
  end.

Definition is_a_zero (x : JS.number) : bool :=
  match Prim2SF x with
  | S754_zero _ => true
  | _ => false
  end.

(** A number that is finite and not a zero. *)
Definition finite_nonzero (x : JS.number) : bool :=
  match Prim2SF x with
  | S754_finite _ _ _ => true
  | _ => false
  end.

(** What a fetch-all function logs for a response, under its message. *)
Definition logged (msg : string) (r : Response) : list (string * PostgrestError) :=
  match r with
  | Success _ => []
  | Failure e => [(msg, e)]
  end.

(** * Theorems *)


(** ** Rounding *)

Lemma pow2_succ (k : Z) : 0 <= k -> 2 ^ (k + 1) = 2 * 2 ^ k.
Proof. intros Hk. rewrite Z.pow_add_r by lia. lia. Qed.

(** [half_up m k] is the integer [n] with [n <= m / 2^k + 1/2 < n + 1]. *)
Lemma half_up_nearest (m k : Z) :
  0 <= k ->
  2 ^ k * (2 * JS.half_up m k) <= 2 * m + 2 ^ k < 2 ^ k * (2 * JS.half_up m k + 2).
Proof.
  intros Hk. unfold JS.half_up. rewrite pow2_succ by assumption.
  assert (Hp : 0 < 2 ^ k) by (apply Z.pow_pos_nonneg; lia).
  pose proof (Z.div_mod (2 * m + 2 ^ k) (2 * 2 ^ k) ltac:(lia)) as Hdm.
  pose proof (Z.mod_pos_bound (2 * m + 2 ^ k) (2 * 2 ^ k) ltac:(lia)) as Hb.
  nia.
Qed.

(** Away from a tie, rounding commutes with negation. *)
Lemma half_up_opp (m k : Z) :
  0 <= k ->
  (2 * m + 2 ^ k) mod 2 ^ (k + 1) <> 0 ->
  JS.half_up (- m) k = - JS.half_up m k.
Proof.
  intros Hk Hne. unfold JS.half_up in *.
  assert (Hp : 0 < 2 ^ (k + 1)) by (apply Z.pow_pos_nonneg; lia).
  replace (2 * - m + 2 ^ k) with (- (2 * m + 2 ^ k) + 1 * 2 ^ (k + 1))
    by (rewrite pow2_succ by assumption; lia).
  rewrite Z.div_add by lia.
  rewrite Z.div_opp_l_nz by lia. lia.
Qed.

(** At a tie, the negated value goes to the integer above. *)
Lemma half_up_opp_tie (m k : Z) :
  0 <= k ->
  (2 * m + 2 ^ k) mod 2 ^ (k + 1) = 0 ->
  JS.half_up (- m) k = - JS.half_up m k + 1.
Proof.
  intros Hk Htie. unfold JS.half_up in *.
  assert (Hp : 0 < 2 ^ (k + 1)) by (apply Z.pow_pos_nonneg; lia).
  replace (2 * - m + 2 ^ k) with (- (2 * m + 2 ^ k) + 1 * 2 ^ (k + 1))
    by (rewrite pow2_succ by assumption; lia).
  rewrite Z.div_add by lia.
  rewrite Z.div_opp_l_z by lia. lia.
Qed.

Lemma half_up_nonneg (m k : Z) : 0 <= k -> 0 <= m -> 0 <= JS.half_up m k.
Proof.
  intros Hk Hm. unfold JS.half_up.
  apply Z.div_pos.
  - assert (0 < 2 ^ k) by (apply Z.pow_pos_nonneg; lia). lia.
  - apply Z.pow_pos_nonneg; lia.
Qed.

Lemma of_int_opp (n : Z) : 0 < n -> JS.of_int (- n) = PrimFloat.opp (JS.of_int n).
Proof.
  intros Hn. unfold JS.of_int.
  destruct (Z.ltb_spec (- n) 0); [| lia].
  destruct (Z.ltb_spec n 0); [lia |].
  now rewrite Z.opp_involutive.
Qed.

(** [Math.round] and rounding half away from zero agree except at a
    negative tie. *)
Lemma Math_round_half_away (x : JS.number) :
  JS.negative_tie x = false ->
  JS.Math_round x = JS.round_half_away_from_zero x.
Proof.
  unfold JS.negative_tie, JS.Math_round, JS.round_half_away_from_zero.
  destruct (Prim2SF x) as [ | | | s m e]; try reflexivity.
  destruct (Z.leb_spec 0 e) as [He | He]; [reflexivity |].
  destruct s; simpl JS.signed; [| reflexivity].
  destruct (Z.ltb_spec e 0) as [_ | ?]; [| lia]. simpl andb.
  intros Htie. apply Z.eqb_neq in Htie.
  change (Z.neg m) with (- Z.pos m).
  rewrite half_up_opp by (assumption || lia).
  pose proof (half_up_nonneg (Z.pos m) (- e) ltac:(lia) ltac:(lia)) as Hn.
  destruct (Z.eqb_spec (JS.half_up (Z.pos m) (- e)) 0) as [E | E].
  - rewrite E. reflexivity.
  - destruct (Z.eqb_spec (- JS.half_up (Z.pos m) (- e)) 0); [lia |].
    apply of_int_opp. lia.
Qed.

(** A number that is not below zero is not a negative tie. *)
Lemma nonneg_not_negative_tie (x : JS.number) :
  (0 <=? x)%float = true -> JS.negative_tie x = false.
Proof.
  rewrite FloatAxioms.leb_spec. unfold JS.negative_tie.
  destruct (Prim2SF x) as [ | | | [|] m e]; try reflexivity.
  discriminate.
Qed.

(** ** Comparisons of numbers *)

Lemma SFcompare_antisym (a b : spec_float) :
  SFcompare b a = option_map CompOpp (SFcompare a b).
Proof.
  destruct a as [[|] | [|] | | [|] m1 e1], b as [[|] | [|] | | [|] m2 e2];
    try reflexivity; simpl;
    rewrite (Z.compare_antisym e1 e2);
    change (Pos.compare_cont Eq m2 m1) with (Pos.compare m2 m1);
    change (Pos.compare_cont Eq m1 m2) with (Pos.compare m1 m2);
    rewrite (Pos.compare_antisym m1 m2);
    destruct (e1 ?= e2); simpl; try reflexivity;
    destruct (m1 ?= m2)%positive; reflexivity.
Qed.

(** [x < y] excludes [y <= x]. *)
Lemma ltb_not_leb (x y : JS.number) :
  (x <? y)%float = true -> (y <=? x)%float = false.
Proof.
  rewrite FloatAxioms.ltb_spec, FloatAxioms.leb_spec. unfold SFltb, SFleb.
  rewrite (SFcompare_antisym (Prim2SF x) (Prim2SF y)).
  destruct (SFcompare (Prim2SF x) (Prim2SF y)) as [[ | | ] | ];
    simpl; intros; (discriminate || reflexivity).
Qed.

(** [<=] is transitive (and fails as soon as a NaN is involved). *)
Lemma SFcompare_finite_trans (a b c : spec_float) :
  SFleb a b = true -> SFleb b c = true -> SFleb a c = true.
Proof.
  unfold SFleb.
  destruct a as [[|] | [|] | | [|] m1 e1], b as [[|] | [|] | | [|] m2 e2],
        c as [[|] | [|] | | [|] m3 e3];
    simpl; try (intros; (discriminate || reflexivity));
    change (Pos.compare_cont Eq m1 m2) with (Pos.compare m1 m2);
    change (Pos.compare_cont Eq m2 m3) with (Pos.compare m2 m3);
    change (Pos.compare_cont Eq m1 m3) with (Pos.compare m1 m3);
    destruct (Z.compare_spec e1 e2); destruct (Z.compare_spec e2 e3);
    destruct (Z.compare_spec e1 e3); try lia; subst;
    try (intros; (discriminate || reflexivity));
    destruct (Pos.compare_spec m1 m2); destruct (Pos.compare_spec m2 m3);
    destruct (Pos.compare_spec m1 m3); simpl; try lia;
    intros; (discriminate || reflexivity).
Qed.

Lemma leb_trans (x y z : JS.number) :
  (x <=? y)%float = true -> (y <=? z)%float = true -> (x <=? z)%float = true.
Proof. rewrite !FloatAxioms.leb_spec. apply SFcompare_finite_trans. Qed.

Lemma leb_nan_r (c x : JS.number) :
  PrimFloat.is_nan x = true -> (c <=? x)%float = false.
Proof.
  unfold PrimFloat.is_nan. rewrite FloatAxioms.eqb_spec, FloatAxioms.leb_spec.
  unfold SFeqb, SFleb.
  destruct (Prim2SF x) as [[|] | [|] | | [|] m e]; simpl;
    try discriminate.
  - destruct (Prim2SF c) as [ | | | ]; reflexivity.
  - rewrite Z.compare_refl. change (Pos.compare_cont Eq m m) with (Pos.compare m m).
    rewrite Pos.compare_refl. discriminate.
  - rewrite Z.compare_refl. change (Pos.compare_cont Eq m m) with (Pos.compare m m).
    rewrite Pos.compare_refl. discriminate.
Qed.

Lemma float_neq (a b : JS.number) :
  PrimFloat.Leibniz.eqb a b = false -> a <> b.
Proof.
  intros H E. apply FloatAxioms.Leibniz.eqb_spec in E. congruence.
Qed.

(** ** Scoring *)

(** C1, as stated: the claim fails at a negative half-way index.  For
    [{Si: -0.125, Ii: 1, Mi: 0.01}] the index is -0.125 and the scaled index
    -12.5; [Math.round] takes it to -12 and the result is -0.12, where
    rounding half away from zero gives -0.13. *)
Lemma calculateHMPI_not_half_away_from_zero :
  ~ (forall s : Sample,
       (Ii s =? 0)%float = false ->
       calculateHMPI s = round_2dp_half_away (hmpi_index s)).
Proof.
  intros H.
  specialize (H (mkSample "Lead" (-0.125) 1 0.01 "2025-01-20") eq_refl).
  revert H. apply float_neq. vm_compute. reflexivity.
Qed.

Example calculateHMPI_negative_tie :
  let s := mkSample "Lead" (-0.125) 1 0.01 "2025-01-20" in
  hmpi_index s = (-0.125)%float
  /\ calculateHMPI s = (-0.12)%float
  /\ round_2dp_half_away (hmpi_index s) = (-0.13)%float.
Proof. vm_compute. repeat split. Qed.

(** C1 (amended): [calculateHMPI] is the index [(Si / Ii) * Mi * 100]
    rounded to 2 decimal places by [Math.round(index * 100) / 100], ties
    going toward +infinity.  For every sample whose scaled index is not a
    negative tie (so for every index that is not below zero) this is the
    index rounded half away from zero at the hundredths digit;
    [calculateHMPI({Si:0.09, Ii:0.3, Mi:0.7})] is 21, and an index of 21.005
    rounds to 21.01. *)
Theorem calculateHMPI_rounds_to_2_decimals :
  (forall s : Sample,
     JS.negative_tie (hmpi_index s * 100) = false ->
     calculateHMPI s = round_2dp_half_away (hmpi_index s))
  /\ (forall s : Sample,
        (0 <=? hmpi_index s * 100)%float = true ->
        calculateHMPI s = round_2dp_half_away (hmpi_index s))
  /\ calculateHMPI (mkSample "Lead" 0.09 0.3 0.7 "2025-01-20") = 21%float
  /\ (forall s : Sample,
        hmpi_index s = 21.005%float -> calculateHMPI s = 21.01%float).
Proof.
  repeat split.
  - intros s Htie. unfold calculateHMPI, round_2dp_half_away.
    now rewrite Math_round_half_away.
  - intros s Hpos. unfold calculateHMPI, round_2dp_half_away.
    now rewrite Math_round_half_away by now apply nonneg_not_negative_tie.
  - intros s Hidx. unfold calculateHMPI. rewrite Hidx. vm_compute. reflexivity.
Qed.

Lemma calculateHMPI_rounds_to_2_decimals_witness :
  calculateHMPI (mkSample "Lead" 0.21005 1 1 "2025-01-20")
  = round_2dp_half_away (hmpi_index (mkSample "Lead" 0.21005 1 1 "2025-01-20"))
  /\ calculateHMPI (mkSample "Lead" 0.21005 1 1 "2025-01-20") = 21.01%float.
Proof.
  split.
  - apply (proj1 (proj2 calculateHMPI_rounds_to_2_decimals)). reflexivity.
  - apply (proj2 (proj2 (proj2 calculateHMPI_rounds_to_2_decimals))). reflexivity.
Defined.

(** C2, as stated: the claim fails at +infinity, a non-finite value that
    passes the first comparison; it is the index of a sample with a positive
    [Si] and [Ii = 0]. *)
Lemma getRiskLevel_non_finite_not_safe :
  ~ (forall x : JS.number, PrimFloat.is_finite x = false -> getRiskLevel x = Safe).
Proof.
  intros H. specialize (H infinity eq_refl). vm_compute in H. discriminate.
Qed.

Example getRiskLevel_division_by_zero :
  let s := mkSample "Lead" 0.09 0 0.7 "2025-01-20" in
  calculateHMPI s = infinity
  /\ level (getRiskLevel (calculateHMPI s)) = "Very High Risk".
Proof. vm_compute. split; reflexivity. Qed.

Example getRiskLevel_zero_by_zero :
  let s := mkSample "Lead" 0 0 0.7 "2025-01-20" in
  calculateHMPI s = nan
  /\ level (getRiskLevel (calculateHMPI s)) = "Safe".
Proof. vm_compute. split; reflexivity. Qed.

(** C2 (amended): [getRiskLevel] returns the first matching entry of the
    descending threshold table, lower bounds inclusive, and [Safe] when none
    matches; it is total.  Negative values, -infinity and NaN resolve to
    [Safe]; +infinity resolves to Very High Risk. *)
Theorem getRiskLevel_first_match :
  (forall x : JS.number, getRiskLevel x = first_match x)
  /\ (forall x : JS.number,
        (100 <=? x)%float = true ->
        getRiskLevel x = VeryHighRisk)
  /\ (forall x : JS.number,
        (50 <=? x)%float = true -> (x <? 100)%float = true ->
        getRiskLevel x = HighRisk)
  /\ (forall x : JS.number,
        (25 <=? x)%float = true -> (x <? 50)%float = true ->
        getRiskLevel x = ModerateRisk)
  /\ (forall x : JS.number,
        (10 <=? x)%float = true -> (x <? 25)%float = true ->
        getRiskLevel x = LowRisk)
  /\ (forall x : JS.number, (x <? 10)%float = true -> getRiskLevel x = Safe)
  /\ (forall x : JS.number, PrimFloat.is_nan x = true -> getRiskLevel x = Safe)
  /\ getRiskLevel neg_infinity = Safe
  /\ getRiskLevel infinity = VeryHighRisk.
Proof.
  assert (Hbelow : forall c d x : JS.number,
             (c <=? d)%float = true -> (x <? c)%float = true ->
             (d <=? x)%float = false).
  { intros c d x Hcd Hx.
    destruct (d <=? x)%float eqn:E; [| reflexivity].
    pose proof (leb_trans c d x Hcd E) as Hcx.
    now rewrite (ltb_not_leb x c Hx) in Hcx. }
  repeat split.
  - intros x. unfold getRiskLevel, first_match, risk_table. simpl.
    destruct (100 <=? x)%float; [reflexivity |].
    destruct (50 <=? x)%float; [reflexivity |].
    destruct (25 <=? x)%float; [reflexivity |].
    destruct (10 <=? x)%float; reflexivity.
  - intros x H. unfold getRiskLevel. now rewrite H.
  - intros x H50 H100. unfold getRiskLevel.
    now rewrite (ltb_not_leb _ _ H100), H50.
  - intros x H25 H50. unfold getRiskLevel.
    rewrite (Hbelow 50 100 x eq_refl H50)%float.
    now rewrite (ltb_not_leb _ _ H50), H25.
  - intros x H10 H25. unfold getRiskLevel.
    rewrite (Hbelow 25 100 x eq_refl H25)%float.
    rewrite (Hbelow 25 50 x eq_refl H25)%float.
    now rewrite (ltb_not_leb _ _ H25), H10.
  - intros x H10. unfold getRiskLevel.
    rewrite (Hbelow 10 100 x eq_refl H10)%float.
    rewrite (Hbelow 10 50 x eq_refl H10)%float.
    rewrite (Hbelow 10 25 x eq_refl H10)%float.
    now rewrite (ltb_not_leb _ _ H10).
  - intros x Hnan. unfold getRiskLevel.
    now rewrite !leb_nan_r by assumption.
Qed.

Lemma getRiskLevel_first_match_witness :
  level (getRiskLevel 100) = "Very High Risk"
  /\ level (getRiskLevel 99.99) = "High Risk"
  /\ level (getRiskLevel 50) = "High Risk"
  /\ level (getRiskLevel 49.99) = "Moderate Risk"
  /\ level (getRiskLevel 25) = "Moderate Risk"
  /\ level (getRiskLevel 10) = "Low Risk"
  /\ level (getRiskLevel 9.99) = "Safe"
  /\ level (getRiskLevel 0) = "Safe"
  /\ level (getRiskLevel (-5)) = "Safe"
  /\ level (getRiskLevel nan) = "Safe".
Proof.
  pose proof getRiskLevel_first_match
    as (_ & Hvh & Hh & Hm & Hl & Hs & Hnan & _ & _).
  split; [exact (f_equal level (Hvh 100%float eq_refl)) |].
  split; [exact (f_equal level (Hh 99.99%float eq_refl eq_refl)) |].
  split; [exact (f_equal level (Hh 50%float eq_refl eq_refl)) |].
  split; [exact (f_equal level (Hm 49.99%float eq_refl eq_refl)) |].
  split; [exact (f_equal level (Hm 25%float eq_refl eq_refl)) |].
  split; [exact (f_equal level (Hl 10%float eq_refl eq_refl)) |].
  split; [exact (f_equal level (Hs 9.99%float eq_refl)) |].
  split; [exact (f_equal level (Hs 0%float eq_refl)) |].
  split; [exact (f_equal level (Hs (-5)%float eq_refl)) |].
  exact (f_equal level (Hnan nan eq_refl)).
Defined.

(** C10: [calculateHMPI] reads [Si], [Ii] and [Mi] only: two samples that
    agree on these three fields get the same value, whatever their other
    fields. *)
Theorem calculateHMPI_depends_on_Si_Ii_Mi_only (s1 s2 : Sample) :
  Si s1 = Si s2 -> Ii s1 = Ii s2 -> Mi s1 = Mi s2 ->
  calculateHMPI s1 = calculateHMPI s2.
Proof.
  intros HS HI HM. unfold calculateHMPI, hmpi_index.
  now rewrite HS, HI, HM.
Qed.

Lemma calculateHMPI_depends_on_Si_Ii_Mi_only_witness :
  calculateHMPI
    {| id := "s1"; projectId := "p1"; sampleId := "GNG-008"; metal := "Lead";
       Si := 0.09; Ii := 0.3; Mi := 0.7;
       latitude := 25.3176; longitude := 82.9739;
       district := "Varanasi"; city := "Varanasi"; date := "2025-01-20" |}
  = calculateHMPI
      {| id := "s2"; projectId := "p2"; sampleId := "YMN-006"; metal := "Arsenic";
         Si := 0.09; Ii := 0.3; Mi := 0.7;
         latitude := 28.7041; longitude := 77.1025;
         district := "New Delhi"; city := "Delhi"; date := "2025-02-12" |}.
Proof.
  apply calculateHMPI_depends_on_Si_Ii_Mi_only; reflexivity.
Defined.

(** ** Objects used as maps *)

Section ObjectFacts.

Context {V : Type}.

Lemma get_set_eq (o : JSObject.t V) (k : string) (v : V) :
  JSObject.get (JSObject.set o k v) k = Some v.
Proof.
  induction o as [| [k' v'] o IH]; simpl.
  - now rewrite String.eqb_refl.
  - destruct (String.eqb k' k) eqn:E; simpl; rewrite E; [reflexivity | exact IH].
Qed.

Lemma get_set_ne (o : JSObject.t V) (k k' : string) (v : V) :
  k <> k' -> JSObject.get (JSObject.set o k v) k' = JSObject.get o k'.
Proof.
  intros Hne. induction o as [| [k0 v0] o IH]; simpl.
  - destruct (String.eqb_spec k k'); [contradiction | reflexivity].
  - destruct (String.eqb_spec k0 k) as [-> | Hk]; simpl.
    + destruct (String.eqb_spec k k'); [contradiction | reflexivity].
    + destruct (String.eqb_spec k0 k'); [reflexivity | exact IH].
Qed.

Lemma get_None_keys (o : JSObject.t V) (k : string) :
  JSObject.get o k = None <-> ~ In k (JSObject.keys o).
Proof.
  induction o as [| [k' v'] o IH]; simpl.
  - tauto.
  - destruct (String.eqb_spec k' k) as [-> | Hk].
    + split; [discriminate | tauto].
    + rewrite IH. tauto.
Qed.

Lemma get_Some_In (o : JSObject.t V) (k : string) (v : V) :
  JSObject.get o k = Some v -> In (k, v) o.
Proof.
  induction o as [| [k' v'] o IH]; simpl; [discriminate |].
  destruct (String.eqb_spec k' k) as [-> | Hk].
  - intros [= ->]. now left.
  - intros H. right. exact (IH H).
Qed.

Lemma In_get (o : JSObject.t V) (k : string) (v : V) :
  NoDup (JSObject.keys o) -> In (k, v) o -> JSObject.get o k = Some v.
Proof.
  induction o as [| [k' v'] o IH]; simpl; [tauto |].
  intros Hnd [[= -> ->] | Hin].
  - now rewrite String.eqb_refl.
  - inversion Hnd as [| ? ? Hnotin Hnd']; subst.
    destruct (String.eqb_spec k' k) as [-> | Hk].
    + exfalso. apply Hnotin. exact (in_map fst _ _ Hin).
    + exact (IH Hnd' Hin).
Qed.

Lemma keys_set (o : JSObject.t V) (k : string) (v : V) :
  JSObject.keys (JSObject.set o k v)
  = match JSObject.get o k with Some _ => JSObject.keys o | None => JSObject.keys o ++ [k] end.
Proof.
  induction o as [| [k' v'] o IH]; simpl; [reflexivity |].
  destruct (String.eqb_spec k' k) as [-> | Hk]; simpl; [reflexivity |].
  rewrite IH. now destruct (JSObject.get o k).
Qed.

Lemma NoDup_keys_set (o : JSObject.t V) (k : string) (v : V) :
  NoDup (JSObject.keys o) -> NoDup (JSObject.keys (JSObject.set o k v)).
Proof.
  intros Hnd. rewrite keys_set.
  destruct (JSObject.get o k) eqn:E; [exact Hnd |].
  apply get_None_keys in E.
  apply NoDup_app; repeat split; auto.
  - apply NoDup_cons; [simpl; tauto | constructor].
  - intros x Hx [<- | []]. contradiction.
Qed.

Lemma In_keys_set (o : JSObject.t V) (k k' : string) (v : V) :
  In k' (JSObject.keys (JSObject.set o k v)) <-> k' = k \/ In k' (JSObject.keys o).
Proof.
  rewrite keys_set. destruct (JSObject.get o k) eqn:E.
  - split; [tauto |]. intros [-> | H]; [| exact H].
    destruct (in_dec string_dec k (JSObject.keys o)) as [Hin | Hout]; [exact Hin |].
    apply get_None_keys in Hout. congruence.
  - rewrite in_app_iff. simpl. intuition congruence.
Qed.

(** Setting a property to the value it has changes nothing. *)
Lemma set_same (o : JSObject.t V) (k : string) (v : V) :
  JSObject.get o k = Some v -> JSObject.set o k v = o.
Proof.
  induction o as [| [k' v'] o IH]; simpl; [discriminate |].
  destruct (String.eqb_spec k' k) as [-> | Hk].
  - now intros [= ->].
  - intros H. now rewrite IH.
Qed.

Lemma insert_by_index_perm (p : string * V) (l : JSObject.t V) :
  Permutation (JSObject.insert_by_index p l) (p :: l).
Proof.
  induction l as [| q l IH]; simpl; [reflexivity |].
  destruct (JSObject.index_of p <=? JSObject.index_of q)%N; [reflexivity |].
  rewrite IH. apply perm_swap.
Qed.

Lemma sort_by_index_perm (l : JSObject.t V) :
  Permutation (fold_right JSObject.insert_by_index [] l) l.
Proof.
  induction l as [| p l IH]; simpl; [reflexivity |].
  rewrite insert_by_index_perm. now constructor.
Qed.

Lemma partition_perm {A : Type} (f : A -> bool) (l : list A) :
  Permutation (List.filter f l ++ List.filter (fun x => negb (f x)) l) l.
Proof.
  induction l as [| x l IH]; simpl; [reflexivity |].
  destruct (f x); simpl.
  - now constructor.
  - rewrite <- Permutation_middle. now constructor.
Qed.

(** [Object.entries] lists every own property once. *)
Lemma entries_perm (o : JSObject.t V) : Permutation (JSObject.entries o) o.
Proof.
  unfold JSObject.entries.
  rewrite sort_by_index_perm. apply partition_perm.
Qed.

End ObjectFacts.

(** ** Counting by key *)

Lemma inherited__proto__ (k : string) : inherited k = false -> k <> "__proto__".
Proof. intros H ->. discriminate H. Qed.

Lemma lookup_own (acc : JSObject.t Counter) (k : string) :
  inherited k = false -> lookup acc k = JSObject.get acc k.
Proof.
  intros H. unfold lookup. rewrite H. now destruct (JSObject.get acc k).
Qed.

Section Counting.

Context {A : Type}.
Variable key : A -> string.

Lemma occurrences_nonneg (k : string) (l : list A) : 0 <= occurrences key k l.
Proof. unfold occurrences. lia. Qed.

Lemma occurrences_snoc (k : string) (l : list A) (x : A) :
  occurrences key k (l ++ [x])
  = occurrences key k l + (if String.eqb (key x) k then 1 else 0).
Proof.
  unfold occurrences. rewrite filter_app, length_app. simpl.
  destruct (String.eqb (key x) k); simpl; lia.
Qed.

(** The object built from the elements of [l]: it owns the keys of [l]
    other than [__proto__], each once, and a key that [Object.prototype]
    does not define holds the number of its elements. *)
Lemma count_from_empty (l : list A) :
  let r := fold_left (count_step key) l JSObject.empty in
  NoDup (JSObject.keys r)
  /\ (forall k, inherited k = false ->
                JSObject.get r k
                = if occurrences key k l =? 0 then None
                  else Some (Count (occurrences key k l)))
  /\ (forall k, In k (JSObject.keys r) <-> k <> "__proto__" /\ In k (map key l)).
Proof.
  cbv zeta. induction l as [| x l IH] using rev_ind.
  - simpl. split; [constructor | split].
    + reflexivity.
    + intros k. simpl. tauto.
  - rewrite fold_left_app. simpl.
    set (r := fold_left (count_step key) l JSObject.empty) in *.
    destruct IH as (Hnd & Hget & Hkeys).
    unfold count_step at 1 2 3; unfold assign.
    destruct (String.eqb_spec (key x) "__proto__") as [Hx | Hx].
    + split; [exact Hnd | split].
      * intros k Hk. rewrite occurrences_snoc, Hx.
        destruct (String.eqb_spec "__proto__" k) as [<- | _]; [discriminate Hk |].
        rewrite Z.add_0_r. now apply Hget.
      * intros k. rewrite Hkeys, map_app, in_app_iff. simpl.
        intuition congruence.
    + split; [now apply NoDup_keys_set | split].
      * intros k Hk. rewrite occurrences_snoc.
        pose proof (occurrences_nonneg k l) as Hocc.
        destruct (String.eqb_spec (key x) k) as [-> | Hne].
        -- rewrite get_set_eq, (lookup_own _ _ Hk), (Hget k Hk).
           destruct (Z.eqb_spec (occurrences key k l) 0) as [E | E].
           ++ rewrite E. reflexivity.
           ++ destruct (Z.eqb_spec (occurrences key k l + 1) 0); [lia |].
              simpl. now destruct (Z.eqb_spec (occurrences key k l) 0).
        -- rewrite get_set_ne by assumption. rewrite Z.add_0_r. now apply Hget.
      * intros k. rewrite In_keys_set, Hkeys, map_app, in_app_iff. simpl.
        intuition congruence.
Qed.

Lemma count_value (l : list A) (k : string) :
  inherited k = false ->
  or_zero (lookup (fold_left (count_step key) l JSObject.empty) k)
  = Count (occurrences key k l).
Proof.
  intros Hk. destruct (count_from_empty l) as (_ & Hget & _).
  rewrite (lookup_own _ _ Hk), (Hget k Hk).
  destruct (Z.eqb_spec (occurrences key k l) 0) as [E | E]; simpl.
  - now rewrite E.
  - now destruct (Z.eqb_spec (occurrences key k l) 0).
Qed.

End Counting.

(** ** Risk distribution *)

Lemma getRiskLevel_cases (x : JS.number) : In (getRiskLevel x) chart_levels.
Proof.
  unfold getRiskLevel, chart_levels.
  destruct (100 <=? x)%float; [simpl; tauto |].
  destruct (50 <=? x)%float; [simpl; tauto |].
  destruct (25 <=? x)%float; [simpl; tauto |].
  destruct (10 <=? x)%float; simpl; tauto.
Qed.

(** The name of a level determines the level. *)
Lemma level_determines (a b : RiskLevel) :
  In a chart_levels -> In b chart_levels -> level a = level b -> a = b.
Proof.
  unfold chart_levels. simpl.
  intros [<- | [<- | [<- | [<- | [<- | []]]]]]
         [<- | [<- | [<- | [<- | [<- | []]]]]];
    simpl; intros E; (reflexivity || discriminate E).
Qed.

(** No level is named like a property of [Object.prototype]. *)
Lemma level_not_inherited (lvl : RiskLevel) :
  In lvl chart_levels -> inherited (level lvl) = false.
Proof.
  unfold chart_levels. simpl.
  intros [<- | [<- | [<- | [<- | [<- | []]]]]]; reflexivity.
Qed.

Lemma filter_map_comm {A B : Type} (f : B -> bool) (g : A -> B) (l : list A) :
  List.filter f (map g l) = map g (List.filter (fun x => f (g x)) l).
Proof.
  induction l as [| x l IH]; simpl; [reflexivity |].
  destruct (f (g x)); simpl; now rewrite IH.
Qed.

Lemma risk_value_classified (samples : list Sample) (lvl : string) :
  inherited lvl = false ->
  or_zero (lookup (riskDistribution (samplesWithHMPI samples)) lvl)
  = Count (classified_at lvl samples).
Proof.
  intros Hlvl.
  pose proof (count_value (fun s => level (riskLevel s))
                (samplesWithHMPI samples) lvl Hlvl) as Hcount.
  unfold riskDistribution.
  change (or_zero
            (lookup
               (fold_left (count_step (fun s => level (riskLevel s)))
                  (samplesWithHMPI samples) JSObject.empty) lvl)
          = Count (classified_at lvl samples)).
  rewrite Hcount. unfold occurrences, classified_at, samplesWithHMPI.
  rewrite filter_map_comm, length_map. reflexivity.
Qed.

Lemma risk_color_classified (samples : list Sample) (lvl : RiskLevel) :
  In lvl chart_levels ->
  or_grey (option_map (fun s => color (riskLevel s))
             (find (fun s => String.eqb (level (riskLevel s)) (level lvl))
                (samplesWithHMPI samples)))
  = if classified_at (level lvl) samples =? 0 then "#666" else color lvl.
Proof.
  intros Hlvl. unfold classified_at.
  induction samples as [| s samples IH]; simpl; [reflexivity |].
  destruct (String.eqb_spec (level (getRiskLevel (calculateHMPI s))) (level lvl))
    as [E | E].
  - apply (level_determines _ _ (getRiskLevel_cases _) Hlvl) in E.
    rewrite E. simpl List.length.
    destruct (Z.eqb_spec (Z.of_nat (S (List.length
      (List.filter
         (fun s0 => String.eqb (level (getRiskLevel (calculateHMPI s0))) (level lvl))
         samples)))) 0); [lia |].
    revert Hlvl. unfold chart_levels. simpl.
    intros [<- | [<- | [<- | [<- | [<- | []]]]]]; reflexivity.
  - exact IH.
Qed.

(** C3, as stated: the claim fails on the empty list, where no sample
    carries a color and every entry gets ['#666']. *)
Lemma riskChartData_color_not_always_canonical :
  ~ (forall samples : list Sample,
       riskChartData (samplesWithHMPI samples)
       = map (fun lvl =>
                {| risk_name := level lvl;
                   risk_value := Count (classified_at (level lvl) samples);
                   risk_color := color lvl |})
             chart_levels).
Proof.
  intros H. specialize (H []). vm_compute in H. discriminate H.
Qed.

(** C3 (amended): for every list of samples (the empty list too),
    [riskChartData] has exactly five entries in the order Safe, Low Risk,
    Moderate Risk, High Risk, Very High Risk; the value of an entry is the
    number of samples classified at its level (0 when none); its color is
    the level's color when at least one sample is classified at the level,
    and ['#666'] when none is. *)
Theorem riskChartData_five_levels (samples : list Sample) :
  riskChartData (samplesWithHMPI samples)
  = map (fun lvl =>
           {| risk_name := level lvl;
              risk_value := Count (classified_at (level lvl) samples);
              risk_color :=
                if classified_at (level lvl) samples =? 0 then "#666"
                else color lvl |})
        chart_levels.
Proof.
  unfold riskChartData, riskLevels.
  change ["Safe"; "Low Risk"; "Moderate Risk"; "High Risk"; "Very High Risk"]
    with (map level chart_levels).
  rewrite map_map. apply map_ext_in.
  intros lvl Hlvl.
  rewrite (risk_value_classified samples _ (level_not_inherited lvl Hlvl)).
  now rewrite (risk_color_classified samples lvl Hlvl).
Qed.

Example riskChartData_empty :
  riskChartData (samplesWithHMPI [])
  = [ {| risk_name := "Safe"; risk_value := Count 0; risk_color := "#666" |};
      {| risk_name := "Low Risk"; risk_value := Count 0; risk_color := "#666" |};
      {| risk_name := "Moderate Risk"; risk_value := Count 0; risk_color := "#666" |};
      {| risk_name := "High Risk"; risk_value := Count 0; risk_color := "#666" |};
      {| risk_name := "Very High Risk"; risk_value := Count 0;
         risk_color := "#666" |} ].
Proof. reflexivity. Qed.

(** ** Per-metal summary *)

Lemma with_metal_scored (m : string) (samples : list Sample) :
  with_metal m (samplesWithHMPI samples) = samplesWithHMPI (of_metal m samples).
Proof. unfold with_metal, samplesWithHMPI, of_metal. apply filter_map_comm. Qed.

Lemma sum_hmpi_scored (samples : list Sample) :
  sum_hmpi (samplesWithHMPI samples)
  = fold_left PrimFloat.add (map calculateHMPI samples) 0%float.
Proof.
  unfold sum_hmpi. generalize 0%float.
  induction samples as [| s samples IH]; intros acc; simpl; [reflexivity |].
  apply IH.
Qed.

Lemma metal_entries (samples : list Sample) :
  let o := metalDistribution (samplesWithHMPI samples) in
  NoDup (JSObject.keys o)
  /\ (forall m c, inherited m = false -> JSObject.get o m = Some c ->
                  c = Count (Z.of_nat (List.length (of_metal m samples))))
  /\ (forall m, In m (JSObject.keys o)
                <-> m <> "__proto__" /\ In m (map metal samples)).
Proof.
  pose proof (count_from_empty (fun s => metal (sample s))
                (samplesWithHMPI samples)) as (Hnd & Hget & Hkeys).
  assert (Hocc : forall m,
             occurrences (fun s => metal (sample s)) m (samplesWithHMPI samples)
             = Z.of_nat (List.length (of_metal m samples))).
  { intros m. unfold occurrences, of_metal, samplesWithHMPI.
    now rewrite filter_map_comm, length_map. }
  split; [exact Hnd | split].
  - intros m c Hm.
    change (JSObject.get
              (fold_left (count_step (fun s => metal (sample s)))
                 (samplesWithHMPI samples) JSObject.empty) m = Some c
            -> c = Count (Z.of_nat (List.length (of_metal m samples)))).
    rewrite (Hget m Hm), Hocc.
    destruct (Z.of_nat (List.length (of_metal m samples)) =? 0); congruence.
  - intros m.
    change (In m (JSObject.keys
                    (fold_left (count_step (fun s => metal (sample s)))
                       (samplesWithHMPI samples) JSObject.empty))
            <-> m <> "__proto__" /\ In m (map metal samples)).
    rewrite Hkeys. unfold samplesWithHMPI. rewrite map_map. simpl. reflexivity.
Qed.

Lemma metal_names (scored : list ScoredSample) :
  map metal_name (metalChartData scored)
  = JSObject.keys (JSObject.entries (metalDistribution scored)).
Proof.
  unfold metalChartData, JSObject.keys. rewrite map_map.
  apply map_ext. now intros [m c].
Qed.

(** A sample of a metal named [__proto__] gets no entry:
    [acc["__proto__"]] is [Object.prototype], [+ 1] makes a string of it,
    and the assignment of a string to [__proto__] is ignored, so the object
    stays empty. *)
Example metalChartData_no_entry_for__proto__ :
  metalDistribution (samplesWithHMPI [proto1]) = []
  /\ metalChartData (samplesWithHMPI [proto1]) = [].
Proof. split; reflexivity. Qed.

(** On a metal named [constructor] the entry is there, and its count is a
    string: the text of the inherited function followed by ["1"]. *)
Example metalChartData_count_of_constructor :
  metalChartData (samplesWithHMPI [mkSample "constructor" 0.1 1 1 "2025-01-01"])
  = [ {| metal_name := "constructor"; metal_count := Text "constructor" "1";
         avgHMPI := 10 |} ].
Proof. reflexivity. Qed.

(** C4: the claim holds for the metals that are not named like a property
    of [Object.prototype], and fails for the others.  The names of the
    entries of [metalChartData] are distinct, and they are the metals
    present other than [__proto__]; the [avgHMPI] of an entry is the
    arithmetic mean of the indices computed for the samples of its metal;
    its count is the number of these samples when no property of
    [Object.prototype] has the name of the metal.  Two samples of metal
    "Lead" with indices 10 and 20 give one entry with count 2 and average
    15; a sample of metal [__proto__] gets no entry. *)
Theorem metalChartData_per_metal :
  (forall samples : list Sample,
     let chart := metalChartData (samplesWithHMPI samples) in
     NoDup (map metal_name chart)
     /\ (forall m, In m (map metal_name chart)
                   <-> m <> "__proto__" /\ In m (map metal samples))
     /\ (forall e, In e chart ->
           avgHMPI e = mean (map calculateHMPI (of_metal (metal_name e) samples))
           /\ (inherited (metal_name e) = false ->
               metal_count e
               = Count (Z.of_nat (List.length (of_metal (metal_name e) samples))))))
  /\ (forall s1 s2 : Sample,
        metal s1 = "Lead" -> metal s2 = "Lead" ->
        calculateHMPI s1 = 10%float -> calculateHMPI s2 = 20%float ->
        metalChartData (samplesWithHMPI [s1; s2])
        = [ {| metal_name := "Lead"; metal_count := Count 2; avgHMPI := 15 |} ])
  /\ (forall s : Sample,
        metal s = "__proto__" -> metalChartData (samplesWithHMPI [s]) = []).
Proof.
  split; [| split].
  - intros samples chart.
    destruct (metal_entries samples) as (Hnd & Hcount & Hkeys).
    pose proof (entries_perm (metalDistribution (samplesWithHMPI samples)))
      as Hperm.
    split; [| split].
    + unfold chart. rewrite metal_names.
      apply (Permutation_NoDup
               (l := JSObject.keys (metalDistribution (samplesWithHMPI samples)))).
      * unfold JSObject.keys. apply Permutation_map. now symmetry.
      * exact Hnd.
    + intros m. unfold chart. rewrite metal_names. rewrite <- Hkeys.
      unfold JSObject.keys. split; apply Permutation_in, Permutation_map;
        [exact Hperm | now symmetry].
    + intros e He. unfold chart, metalChartData in He.
      apply in_map_iff in He. destruct He as ([m c] & <- & Hin). simpl.
      apply (Permutation_in _ Hperm) in Hin.
      apply (In_get _ _ _ Hnd) in Hin.
      split.
      * rewrite with_metal_scored, sum_hmpi_scored. unfold mean.
        unfold samplesWithHMPI. now rewrite !length_map.
      * intros Hm. exact (Hcount m c Hm Hin).
  - intros s1 s2 H1 H2 V1 V2.
    unfold metalChartData, metalDistribution, with_metal, sum_hmpi. simpl.
    rewrite H1, H2, V1, V2. vm_compute. reflexivity.
  - intros s Hs.
    unfold metalChartData, metalDistribution. simpl. rewrite Hs. reflexivity.
Qed.

Lemma metalChartData_per_metal_witness :
  metalChartData (samplesWithHMPI [lead10; lead20])
  = [ {| metal_name := "Lead"; metal_count := Count 2; avgHMPI := 15 |} ]
  /\ metal_count {| metal_name := "Lead"; metal_count := Count 2; avgHMPI := 15 |}
     = Count (Z.of_nat (List.length (of_metal "Lead" [lead10; lead20])))
  /\ metalChartData (samplesWithHMPI [proto1]) = [].
Proof.
  split; [| split].
  - apply (proj1 (proj2 metalChartData_per_metal)); reflexivity.
  - apply (proj1 metalChartData_per_metal [lead10; lead20]).
    + left. reflexivity.
    + reflexivity.
  - apply (proj2 (proj2 metalChartData_per_metal)). reflexivity.
Defined.

(** ** Time series *)

Section SortFacts.

Variable getTime : string -> option Z.

Lemma sort_insert_perm {A : Type} (cmp : A -> A -> option Z) (x : A) (l : list A) :
  Permutation (sort_insert cmp x l) (x :: l).
Proof.
  induction l as [| y l IH]; simpl; [reflexivity |].
  destruct (0 <? sort_compare cmp x y); [| reflexivity].
  rewrite IH. apply perm_swap.
Qed.

Lemma Array_sort_perm {A : Type} (cmp : A -> A -> option Z) (l : list A) :
  Permutation (Array_sort cmp l) l.
Proof.
  induction l as [| x l IH]; simpl; [reflexivity |].
  rewrite sort_insert_perm. now constructor.
Qed.

Lemma time_le_trans (p q r : TimePoint) :
  time_le getTime p q -> time_le getTime q r -> time_le getTime p r.
Proof.
  unfold time_le.
  destruct (getTime (point_date p)), (getTime (point_date q)),
    (getTime (point_date r)); try tauto. lia.
Qed.

Lemma sort_insert_sorted (x : ScoredSample) (l : list ScoredSample) :
  (valid_date getTime) x -> Forall (valid_date getTime) l ->
  StronglySorted (time_le getTime) (map time_point l) ->
  StronglySorted (time_le getTime)
    (map time_point (sort_insert (by_date getTime) x l)).
Proof.
  intros Hx Hl Hs. induction l as [| y l IH]; simpl.
  - constructor; constructor.
  - inversion Hl as [| ? ? Hy Hl']; subst.
    simpl in Hs. inversion Hs as [| ? ? Hs' Hall]; subst.
    unfold valid_date in Hx, Hy.
    destruct (Z.ltb_spec 0 (sort_compare (by_date getTime) x y)) as [Hgt | Hle];
      unfold sort_compare, by_date in *;
      destruct (getTime (date (sample x))) as [tx |] eqn:Ex; try congruence;
      destruct (getTime (date (sample y))) as [ty |] eqn:Ey; try congruence.
    + simpl. constructor; [now apply IH |].
      apply Forall_forall. intros p Hp.
      apply (Permutation_in (l' := map time_point (x :: l))) in Hp;
        [| apply Permutation_map, sort_insert_perm].
      destruct Hp as [<- | Hp].
      * unfold time_le. simpl. rewrite Ex, Ey. lia.
      * rewrite Forall_forall in Hall. now apply Hall.
    + simpl. constructor; [exact Hs |].
      assert (Hxy : time_le getTime (time_point x) (time_point y))
        by (unfold time_le; simpl; rewrite Ex, Ey; lia).
      constructor; [exact Hxy |].
      apply Forall_forall. intros p Hp.
      rewrite Forall_forall in Hall.
      exact (time_le_trans _ _ _ Hxy (Hall p Hp)).
Qed.

Lemma Array_sort_valid (l : list ScoredSample) :
  Forall (valid_date getTime) l -> Forall (valid_date getTime) (Array_sort (by_date getTime) l).
Proof.
  intros H. rewrite Forall_forall in *. intros x Hx.
  apply H. exact (Permutation_in _ (Array_sort_perm _ _) Hx).
Qed.

Lemma Array_sort_sorted (l : list ScoredSample) :
  Forall (valid_date getTime) l ->
  StronglySorted (time_le getTime)
    (map time_point (Array_sort (by_date getTime) l)).
Proof.
  induction l as [| x l IH]; intros Hl; simpl; [constructor |].
  inversion Hl as [| ? ? Hx Hl']; subst.
  apply sort_insert_sorted; auto using Array_sort_valid.
Qed.

(** Insertion keeps the points of one time in their order, the new one
    first. *)
Lemma sort_insert_stable (t : Z) (x : ScoredSample) (l : list ScoredSample) :
  (valid_date getTime) x -> Forall (valid_date getTime) l ->
  dated_at getTime t (map time_point (sort_insert (by_date getTime) x l))
  = dated_at getTime t (map time_point (x :: l)).
Proof.
  intros Hx Hl. induction l as [| y l IH]; [reflexivity |].
  inversion Hl as [| ? ? Hy Hl']; subst.
  specialize (IH Hl'). simpl in *.
  unfold valid_date in Hx, Hy.
  destruct (Z.ltb_spec 0 (sort_compare (by_date getTime) x y)) as [Hgt | Hle];
    [| reflexivity].
  unfold sort_compare, by_date in Hgt.
  destruct (getTime (date (sample x))) as [tx |] eqn:Ex; try congruence.
  destruct (getTime (date (sample y))) as [ty |] eqn:Ey; try congruence.
  simpl. rewrite Ey. rewrite IH.
  destruct (Z.eqb_spec ty t) as [-> | Hty];
    destruct (Z.eqb_spec tx t) as [-> | Htx]; try reflexivity.
  lia.
Qed.

Lemma Array_sort_stable (t : Z) (l : list ScoredSample) :
  Forall (valid_date getTime) l ->
  dated_at getTime t (map time_point (Array_sort (by_date getTime) l))
  = dated_at getTime t (map time_point l).
Proof.
  induction l as [| x l IH]; intros Hl; [reflexivity |].
  inversion Hl as [| ? ? Hx Hl']; subst. simpl Array_sort.
  rewrite sort_insert_stable by auto using Array_sort_valid.
  simpl. rewrite (IH Hl'). reflexivity.
Qed.

End SortFacts.

(** C5, as stated: the claim fails on a list with a date that does not
    parse.  [date] is any string; for the empty string [new Date('')] is an
    invalid date, the comparator answers NaN on every pair with that sample,
    [sort] reads each NaN as 0 and makes no exchange: samples dated
    [2025-02-01, '', 2025-01-01] come out in that order, the later date
    first. *)
Lemma timeSeriesData_not_sorted_for_every_list :
  ~ (forall scored : list ScoredSample,
       let series := timeSeriesData IsoDate.getTime scored in
       Permutation (map time_point scored) series
       /\ StronglySorted (time_le IsoDate.getTime) series
       /\ (forall t : Z,
             dated_at IsoDate.getTime t series
             = dated_at IsoDate.getTime t (map time_point scored))).
Proof.
  intros H.
  destruct (H (samplesWithHMPI [lead10; undated; lead20])) as (_ & Hsorted & _).
  apply StronglySorted_inv in Hsorted. destruct Hsorted as [_ Hall].
  apply Forall_inv in Hall. exact Hall.
Qed.

(** The run behind it.  The comparator is not a consistent one here (the
    undated sample compares as equal to both others, which differ), so the
    order is the one the engine's algorithm happens to give; the two dated
    points stay in their input order, 2025-02-01 before 2025-01-01. *)
Example timeSeriesData_unparsable_date :
  map point_date
    (timeSeriesData IsoDate.getTime (samplesWithHMPI [lead10; undated; lead20]))
  = ["2025-02-01"; ""; "2025-01-01"].
Proof. reflexivity. Qed.

(** With one dated and one undated sample every comparison answers NaN, the
    comparator is a consistent one and the language fixes the result: the
    input order, whichever it is.  The undated point has no place by date. *)
Example timeSeriesData_undated_stays :
  map point_date (timeSeriesData IsoDate.getTime (samplesWithHMPI [lead10; undated]))
  = ["2025-02-01"; ""]
  /\ map point_date (timeSeriesData IsoDate.getTime (samplesWithHMPI [undated; lead10]))
     = [""; "2025-02-01"].
Proof. split; reflexivity. Qed.

(** C5 (amended): for samples whose dates all parse as calendar dates,
    [timeSeriesData] is the list of the (date, hmpi) pairs in ascending
    order of date, and the pairs of one date keep their original relative
    order.  Samples dated [2025-02-01, 2025-01-01] give the order
    [2025-01-01, 2025-02-01]. *)
Theorem timeSeriesData_sorted_stable :
  (forall (getTime : string -> option Z) (scored : list ScoredSample),
     Forall (valid_date getTime) scored ->
     let series := timeSeriesData getTime scored in
     Permutation (map time_point scored) series
     /\ StronglySorted (time_le getTime) series
     /\ (forall t : Z,
           dated_at getTime t series = dated_at getTime t (map time_point scored)))
  /\ (forall s1 s2 : ScoredSample,
        date (sample s1) = "2025-02-01" -> date (sample s2) = "2025-01-01" ->
        timeSeriesData IsoDate.getTime [s1; s2] = [time_point s2; time_point s1]).
Proof.
  split.
  - intros getTime scored Hvalid series. unfold series, timeSeriesData.
    split; [| split].
    + apply Permutation_map. symmetry. apply Array_sort_perm.
    + now apply Array_sort_sorted.
    + intros t. now apply Array_sort_stable.
  - intros s1 s2 H1 H2. unfold timeSeriesData. simpl.
    unfold sort_compare, by_date. rewrite H1, H2. reflexivity.
Qed.

Lemma timeSeriesData_sorted_stable_witness :
  timeSeriesData IsoDate.getTime (samplesWithHMPI [lead10; lead20; lead30])
  = [ {| point_date := "2025-01-01"; point_hmpi := 20 |};
      {| point_date := "2025-02-01"; point_hmpi := 10 |};
      {| point_date := "2025-02-01"; point_hmpi := 30 |} ]
  /\ StronglySorted (time_le IsoDate.getTime)
       (timeSeriesData IsoDate.getTime (samplesWithHMPI [lead10; lead20; lead30]))
  /\ timeSeriesData IsoDate.getTime (samplesWithHMPI [lead10; lead20])
     = [ {| point_date := "2025-01-01"; point_hmpi := 20 |};
         {| point_date := "2025-02-01"; point_hmpi := 10 |} ].
Proof.
  split; [reflexivity | split].
  - apply (proj1 timeSeriesData_sorted_stable IsoDate.getTime
             (samplesWithHMPI [lead10; lead20; lead30])).
    repeat constructor; discriminate.
  - apply (proj2 timeSeriesData_sorted_stable); reflexivity.
Defined.

(** ** Data access: error policies *)

Section ErrorPolicies.

Context {Store : Type}.
Variable supabase : Query -> Store -> Response * Store.

Lemma swallows_never_throws (f : Async Store (list Row)) (q : Query) (msg : string) :
  swallows_errors supabase f q msg -> never_throws f.
Proof.
  intros H w. specialize (H w).
  destruct (supabase q (store w)) as [[rows | e] s']; eauto.
Qed.

Lemma propagates_throws_exactly (f : Async Store (list Row)) (q : Query) (msg : string) :
  propagates_errors supabase f q msg -> throws_exactly_on_error supabase f q.
Proof.
  intros H w. specialize (H w).
  destruct (supabase q (store w)) as [[rows | e] s']; rewrite H; split.
  - intros (e & w' & [=]).
  - intros (e & s'' & [=]).
  - intros _. eauto.
  - intros _. eauto.
Qed.

End ErrorPolicies.

Ltac run_query supabase w :=
  intros w; cbv [bind await ret throw console_error];
  destruct (supabase _ (store w)) as [[? | ?] ?]; reflexivity.

(** C6: the four fetch-all functions never throw: when the store reports an
    error they log it and return the empty list, and otherwise they return
    the fetched records. *)
Theorem fetch_all_swallows_errors
    (Store : Type) (supabase : Query -> Store -> Response * Store) :
  (swallows_errors supabase (fetchProjects supabase)
     (Select "projects" "*") "Error fetching projects:"
   /\ swallows_errors supabase (fetchSamples supabase)
        (Select "samples" "*") "Error fetching samples:"
   /\ swallows_errors supabase (fetchAlerts supabase)
        (Select "alerts" "*") "Error fetching alerts:"
   /\ swallows_errors supabase (fetchPolicies supabase)
        (Select "policies" "*") "Error fetching policies:")
  /\ never_throws (fetchProjects supabase)
  /\ never_throws (fetchSamples supabase)
  /\ never_throws (fetchAlerts supabase)
  /\ never_throws (fetchPolicies supabase).
Proof.
  assert (H : swallows_errors supabase (fetchProjects supabase)
                (Select "projects" "*") "Error fetching projects:"
              /\ swallows_errors supabase (fetchSamples supabase)
                   (Select "samples" "*") "Error fetching samples:"
              /\ swallows_errors supabase (fetchAlerts supabase)
                   (Select "alerts" "*") "Error fetching alerts:"
              /\ swallows_errors supabase (fetchPolicies supabase)
                   (Select "policies" "*") "Error fetching policies:").
  { repeat split; unfold fetchProjects, fetchSamples, fetchAlerts, fetchPolicies;
      run_query supabase w. }
  split; [exact H |].
  destruct H as (Hp & Hs & Ha & Hpo).
  split; [exact (swallows_never_throws _ _ _ _ Hp) |].
  split; [exact (swallows_never_throws _ _ _ _ Hs) |].
  split; [exact (swallows_never_throws _ _ _ _ Ha) |].
  exact (swallows_never_throws _ _ _ _ Hpo).
Qed.

Example fetchProjects_offline :
  fetchProjects offline {| store := tt; console := [] |}
  = (Returned [],
     {| store := tt; console := [("Error fetching projects:", timeout_error)] |}).
Proof. reflexivity. Qed.

Example fetchAlerts_online :
  fetchAlerts TableStore.run {| store := store0; console := [] |}
  = (Returned [alert_a1; alert_a2], {| store := store0; console := [] |}).
Proof. reflexivity. Qed.

(** C7: the five write functions throw exactly when the store reports an
    error, after logging it and with the store's error as the exception;
    otherwise they return the records the store answered with. *)
Theorem writes_propagate_errors
    (Store : Type) (supabase : Query -> Store -> Response * Store) :
  (forall projectData,
     let q := Insert "projects" [projectData] in
     propagates_errors supabase (createProject supabase projectData) q
       "Error creating project:"
     /\ throws_exactly_on_error supabase (createProject supabase projectData) q)
  /\ (forall sampleData,
        let q := Insert "samples" [sampleData] in
        propagates_errors supabase (createSample supabase sampleData) q
          "Error creating sample:"
        /\ throws_exactly_on_error supabase (createSample supabase sampleData) q)
  /\ (forall policyData,
        let q := Insert "policies" [policyData] in
        propagates_errors supabase (createPolicy supabase policyData) q
          "Error creating policy:"
        /\ throws_exactly_on_error supabase (createPolicy supabase policyData) q)
  /\ (forall alertId,
        let q := UpdateEq "alerts" [("acknowledged", JBool true)] "id" alertId in
        propagates_errors supabase (acknowledgeAlert supabase alertId) q
          "Error acknowledging alert:"
        /\ throws_exactly_on_error supabase (acknowledgeAlert supabase alertId) q)
  /\ (forall projectId thresholds,
        let q := UpdateEq "projects"
                   [("policyMakerThresholds", JObj thresholds)] "id" projectId in
        propagates_errors supabase
          (updateProjectThreshold supabase projectId thresholds) q
          "Error updating project threshold:"
        /\ throws_exactly_on_error supabase
             (updateProjectThreshold supabase projectId thresholds) q).
Proof.
  assert (Hboth : forall f q msg,
             propagates_errors supabase f q msg ->
             propagates_errors supabase f q msg
             /\ throws_exactly_on_error supabase f q)
    by (intros f q msg H; split; [exact H | exact (propagates_throws_exactly _ _ _ _ H)]).
  split; [intros projectData q; apply Hboth; unfold createProject;
          run_query supabase w |].
  split; [intros sampleData q; apply Hboth; unfold createSample;
          run_query supabase w |].
  split; [intros policyData q; apply Hboth; unfold createPolicy;
          run_query supabase w |].
  split; [intros alertId q; apply Hboth; unfold acknowledgeAlert;
          run_query supabase w |].
  intros projectId thresholds q; apply Hboth; unfold updateProjectThreshold.
  run_query supabase w.
Qed.

Example createProject_offline :
  createProject offline [("name", JStr "Ganga")] {| store := tt; console := [] |}
  = (Thrown timeout_error,
     {| store := tt; console := [("Error creating project:", timeout_error)] |}).
Proof. reflexivity. Qed.

Example createProject_online :
  fst (createProject TableStore.run [("name", JStr "Kaveri")]
         {| store := store0; console := [] |})
  = Returned [[("name", JStr "Kaveri"); ("id", JStr "1")]].
Proof. reflexivity. Qed.

(** ** Data access: updates on the table store *)

Lemma matches_set_other (column value k : string) (v : Json) (row : Row) :
  k <> column ->
  TableStore.matches column value (JSObject.set row k v)
  = TableStore.matches column value row.
Proof.
  intros Hne. unfold TableStore.matches. now rewrite get_set_ne.
Qed.

Lemma set_set {V : Type} (o : JSObject.t V) (k : string) (v : V) :
  JSObject.set (JSObject.set o k v) k v = JSObject.set o k v.
Proof. apply set_same, get_set_eq. Qed.

Section UpdateEq.

(** An update of one column [k] on the records whose [id] is [value]. *)
Variables (k value : string) (v : Json).
Hypothesis k_not_id : k <> "id".

Local Abbreviation updated := (TableStore.updated [(k, v)] "id" value).

Lemma updated_matches (row : Row) :
  TableStore.matches "id" value (updated row) = TableStore.matches "id" value row.
Proof.
  unfold TableStore.updated. destruct (TableStore.matches "id" value row) eqn:E; [| exact E].
  simpl. now rewrite matches_set_other.
Qed.

Lemma updated_idempotent (row : Row) : updated (updated row) = updated row.
Proof.
  unfold TableStore.updated at 1. rewrite updated_matches. unfold TableStore.updated.
  destruct (TableStore.matches "id" value row); [| reflexivity].
  simpl. apply set_set.
Qed.

Lemma updated_rows_idempotent (rows : list Row) :
  map updated (map updated rows) = map updated rows.
Proof.
  rewrite map_map. apply map_ext. exact updated_idempotent.
Qed.

Lemma returned_rows_idempotent (rows : list Row) :
  map (TableStore.patch_row [(k, v)])
    (List.filter (TableStore.matches "id" value) (map updated rows))
  = map (TableStore.patch_row [(k, v)])
      (List.filter (TableStore.matches "id" value) rows).
Proof.
  induction rows as [| row rows IH]; simpl; [reflexivity |].
  rewrite updated_matches.
  destruct (TableStore.matches "id" value row) eqn:E; [| exact IH].
  simpl. rewrite IH. f_equal.
  unfold TableStore.updated. rewrite E. simpl. apply set_set.
Qed.

Lemma updated_fixed (row : Row) :
  (TableStore.matches "id" value row = true -> JSObject.get row k = Some v) ->
  updated row = row.
Proof.
  unfold TableStore.updated. destruct (TableStore.matches "id" value row); [| reflexivity].
  intros H. simpl. now apply set_same, H.
Qed.

Lemma updated_field (row : Row) :
  TableStore.matches "id" value row = true ->
  JSObject.get (updated row) k = Some v
  /\ (forall k', k' <> k -> JSObject.get (updated row) k' = JSObject.get row k').
Proof.
  intros E. unfold TableStore.updated. rewrite E. simpl. split.
  - apply get_set_eq.
  - intros k' Hk'. apply get_set_ne. congruence.
Qed.

End UpdateEq.

Lemma acknowledgeAlert_run
    (s : TableStore.t) (log : list (string * PostgrestError)) (alertId : string) :
  acknowledgeAlert TableStore.run alertId {| store := s; console := log |}
  = (Returned
       (map (TableStore.patch_row [("acknowledged", JBool true)])
          (List.filter (TableStore.matches "id" alertId) (TableStore.alerts s))),
     {| store :=
          {| TableStore.projects := TableStore.projects s;
             TableStore.samples := TableStore.samples s;
             TableStore.alerts :=
               map (TableStore.updated [("acknowledged", JBool true)] "id" alertId)
                 (TableStore.alerts s);
             TableStore.policies := TableStore.policies s;
             TableStore.next_id := TableStore.next_id s |};
        console := log |}).
Proof. reflexivity. Qed.

Lemma updateProjectThreshold_run
    (s : TableStore.t) (log : list (string * PostgrestError))
    (projectId : string) (thresholds : list (string * Json)) :
  updateProjectThreshold TableStore.run projectId thresholds
    {| store := s; console := log |}
  = (Returned
       (map (TableStore.patch_row [("policyMakerThresholds", JObj thresholds)])
          (List.filter (TableStore.matches "id" projectId) (TableStore.projects s))),
     {| store :=
          {| TableStore.projects :=
               map (TableStore.updated
                      [("policyMakerThresholds", JObj thresholds)] "id" projectId)
                 (TableStore.projects s);
             TableStore.samples := TableStore.samples s;
             TableStore.alerts := TableStore.alerts s;
             TableStore.policies := TableStore.policies s;
             TableStore.next_id := TableStore.next_id s |};
        console := log |}).
Proof. reflexivity. Qed.

(** C8: on the table store, [acknowledgeAlert] returns without an error,
    every alert with the given id is acknowledged afterwards, an alert that
    is acknowledged already is left as it is, and two successive calls on
    one id leave the store, and return the records, of a single call. *)
Theorem acknowledgeAlert_idempotent
    (s : TableStore.t) (log : list (string * PostgrestError)) (alertId : string) :
  let w0 := {| store := s; console := log |} in
  let once := acknowledgeAlert TableStore.run alertId w0 in
  let twice := acknowledgeAlert TableStore.run alertId (snd once) in
  (exists rows,
      fst once = Returned rows /\ fst twice = Returned rows
      /\ Forall acknowledged rows)
  /\ snd twice = snd once
  /\ Forall (fun row => TableStore.matches "id" alertId row = true -> acknowledged row)
       (TableStore.alerts (store (snd once)))
  /\ (Forall (fun row => TableStore.matches "id" alertId row = true -> acknowledged row)
        (TableStore.alerts s) ->
      snd once = w0).
Proof.
  assert (Hne : "acknowledged" <> "id") by discriminate.
  intros w0 once twice. unfold twice, once, w0.
  rewrite acknowledgeAlert_run. simpl snd. rewrite acknowledgeAlert_run.
  simpl fst. simpl snd. simpl TableStore.alerts. simpl store.
  split; [| split; [| split]].
  - eexists. split; [reflexivity | split].
    + now rewrite returned_rows_idempotent.
    + apply Forall_forall. intros row Hrow.
      apply in_map_iff in Hrow. destruct Hrow as (row0 & <- & _).
      simpl. apply get_set_eq.
  - now rewrite updated_rows_idempotent.
  - apply Forall_forall. intros row Hrow Hm.
    apply in_map_iff in Hrow. destruct Hrow as (row0 & <- & _).
    rewrite updated_matches in Hm by assumption.
    exact (proj1 (updated_field _ _ _ _ Hm)).
  - intros Hack. destruct s as [ps ss als pol nid]. simpl in *.
    do 2 f_equal.
    rewrite <- (map_id als) at 2. apply map_ext_in.
    intros row Hrow. apply updated_fixed.
    rewrite Forall_forall in Hack. exact (Hack row Hrow).
Qed.

Lemma acknowledgeAlert_idempotent_witness :
  snd (acknowledgeAlert TableStore.run "a1" {| store := store1; console := [] |})
  = {| store := store1; console := [] |}.
Proof.
  apply (proj2 (proj2 (proj2 (acknowledgeAlert_idempotent store1 [] "a1")))).
  repeat constructor; simpl; intros; (reflexivity || discriminate).
Defined.

Example acknowledgeAlert_twice :
  acknowledgeAlert TableStore.run "a1" {| store := store0; console := [] |}
  = (Returned [alert_a1_acknowledged], {| store := store1; console := [] |})
  /\ acknowledgeAlert TableStore.run "a1" {| store := store1; console := [] |}
     = (Returned [alert_a1_acknowledged], {| store := store1; console := [] |}).
Proof. split; reflexivity. Qed.

(** C9: on the table store, [updateProjectThreshold] sets
    [policyMakerThresholds] of every project with the given id to the given
    object as a whole, whatever the object held before; the other fields of
    that project, the other projects, the other collections and the console
    are unchanged. *)
Theorem updateProjectThreshold_replaces
    (s : TableStore.t) (log : list (string * PostgrestError))
    (projectId : string) (thresholds : list (string * Json)) :
  let w' := snd (updateProjectThreshold TableStore.run projectId thresholds
                   {| store := s; console := log |}) in
  Forall2
    (fun old new =>
       if TableStore.matches "id" projectId old
       then JSObject.get new "policyMakerThresholds" = Some (JObj thresholds)
            /\ (forall k, k <> "policyMakerThresholds" ->
                          JSObject.get new k = JSObject.get old k)
       else new = old)
    (TableStore.projects s) (TableStore.projects (store w'))
  /\ TableStore.samples (store w') = TableStore.samples s
  /\ TableStore.alerts (store w') = TableStore.alerts s
  /\ TableStore.policies (store w') = TableStore.policies s
  /\ console w' = log.
Proof.
  intros w'. unfold w'. rewrite updateProjectThreshold_run. simpl.
  split; [| repeat split].
  induction (TableStore.projects s) as [| row rows IH]; simpl; constructor;
    [| exact IH].
  destruct (TableStore.matches "id" projectId row) eqn:E.
  - exact (updated_field _ _ _ row E).
  - unfold TableStore.updated. now rewrite E.
Qed.

Example updateProjectThreshold_whole_object :
  let w' := snd (updateProjectThreshold TableStore.run "p1" [("HMPI", JNum 75)]
                   {| store := store0; console := [] |}) in
  TableStore.projects (store w')
  = [ [("id", JStr "p1"); ("name", JStr "Ganga");
       ("policyMakerThresholds", JObj [("HMPI", JNum 75)])];
      project_p2 ].
Proof. reflexivity. Qed.

(** * Further properties *)

(** ** Scoring *)

(** X1: [getRiskLevel] is monotone: an index that is at least another one
    never gets a less severe level. *)
Theorem getRiskLevel_monotone (x y : JS.number) :
  (x <=? y)%float = true ->
  severity (getRiskLevel x) <= severity (getRiskLevel y).
Proof.
  intros Hxy.
  assert (Hup : forall c : JS.number,
             (c <=? x)%float = true -> (c <=? y)%float = true)
    by (intros c Hc; exact (leb_trans c x y Hc Hxy)).
  unfold getRiskLevel.
  destruct (100 <=? x)%float eqn:E100.
  { rewrite (Hup _ E100). vm_compute. discriminate. }
  destruct (50 <=? x)%float eqn:E50.
  { rewrite (Hup _ E50). destruct (100 <=? y)%float; vm_compute; discriminate. }
  destruct (25 <=? x)%float eqn:E25.
  { rewrite (Hup _ E25).
    destruct (100 <=? y)%float; [vm_compute; discriminate |].
    destruct (50 <=? y)%float; vm_compute; discriminate. }
  destruct (10 <=? x)%float eqn:E10.
  { rewrite (Hup _ E10).
    destruct (100 <=? y)%float; [vm_compute; discriminate |].
    destruct (50 <=? y)%float; [vm_compute; discriminate |].
    destruct (25 <=? y)%float; vm_compute; discriminate. }
  destruct (100 <=? y)%float; [vm_compute; discriminate |].
  destruct (50 <=? y)%float; [vm_compute; discriminate |].
  destruct (25 <=? y)%float; [vm_compute; discriminate |].
  destruct (10 <=? y)%float; vm_compute; discriminate.
Qed.

Lemma getRiskLevel_monotone_witness :
  severity (getRiskLevel 49.99) <= severity (getRiskLevel 50).
Proof. apply getRiskLevel_monotone. reflexivity. Defined.

(** *** Shapes of numbers *)

Lemma SFcompare_refl_finite (s : bool) (m : positive) (e : Z) :
  SFcompare (S754_finite s m e) (S754_finite s m e) = Some Eq.
Proof.
  simpl. rewrite Z.compare_refl.
  change (Pos.compare_cont Eq m m) with (Pos.compare m m).
  rewrite Pos.compare_refl. now destruct s.
Qed.

Lemma is_nan_shape (x : JS.number) :
  PrimFloat.is_nan x = true <-> Prim2SF x = S754_nan.
Proof.
  unfold PrimFloat.is_nan. rewrite FloatAxioms.eqb_spec. unfold SFeqb.
  destruct (Prim2SF x) as [[|] | [|] | | s m e]; simpl;
    try (split; (discriminate || reflexivity)).
  rewrite Z.compare_refl.
  change (Pos.compare_cont Eq m m) with (Pos.compare m m).
  rewrite Pos.compare_refl. destruct s; simpl; split; discriminate.
Qed.

Lemma is_finite_shape (x : JS.number) :
  PrimFloat.is_finite x = negb (not_finite x).
Proof.
  unfold PrimFloat.is_finite, PrimFloat.is_nan, PrimFloat.is_infinity, not_finite.
  rewrite !FloatAxioms.eqb_spec, abs_spec.
  change (Prim2SF infinity) with (S754_infinity false).
  unfold SFeqb.
  destruct (Prim2SF x) as [[|] | [|] | | s m e]; try reflexivity.
  rewrite SFcompare_refl_finite. reflexivity.
Qed.

Lemma eqb_zero_shape (x : JS.number) : (x =? 0)%float = is_a_zero x.
Proof.
  rewrite FloatAxioms.eqb_spec. unfold is_a_zero, SFeqb.
  change (Prim2SF 0) with (S754_zero false).
  now destruct (Prim2SF x) as [[|] | [|] | | [|] m e].
Qed.

Lemma Math_round_not_finite (x : JS.number) :
  not_finite x = true -> JS.Math_round x = x.
Proof.
  unfold not_finite, JS.Math_round.
  now destruct (Prim2SF x).
Qed.

Lemma Math_round_zero (x : JS.number) : is_a_zero x = true -> JS.Math_round x = x.
Proof.
  unfold is_a_zero, JS.Math_round.
  now destruct (Prim2SF x).
Qed.

Lemma div_by_zero (a b : JS.number) :
  is_a_zero b = true -> not_finite (a / b) = true.
Proof.
  unfold is_a_zero, not_finite. rewrite div_spec.
  destruct (Prim2SF a) as [[|] | [|] | | [|] ? ?],
           (Prim2SF b) as [[|] | [|] | | [|] ? ?];
    (discriminate || reflexivity).
Qed.

Lemma mul_not_finite (a b : JS.number) :
  not_finite a = true -> not_finite (a * b) = true.
Proof.
  unfold not_finite. rewrite mul_spec.
  destruct (Prim2SF a) as [[|] | [|] | | [|] ? ?],
           (Prim2SF b) as [[|] | [|] | | [|] ? ?];
    (discriminate || reflexivity).
Qed.

Lemma div_not_finite (a b : JS.number) :
  not_finite a = true -> not_finite (a / b) = true.
Proof.
  unfold not_finite. rewrite div_spec.
  destruct (Prim2SF a) as [[|] | [|] | | [|] ? ?],
           (Prim2SF b) as [[|] | [|] | | [|] ? ?];
    (discriminate || reflexivity).
Qed.

Lemma getRiskLevel_not_finite (x : JS.number) :
  not_finite x = true ->
  getRiskLevel x = Safe \/ getRiskLevel x = VeryHighRisk.
Proof.
  unfold not_finite, getRiskLevel. rewrite !FloatAxioms.leb_spec.
  change (Prim2SF 100) with (S754_finite false 7036874417766400 (-46)).
  change (Prim2SF 50) with (S754_finite false 7036874417766400 (-47)).
  change (Prim2SF 25) with (S754_finite false 7036874417766400 (-48)).
  change (Prim2SF 10) with (S754_finite false 5629499534213120 (-49)).
  destruct (Prim2SF x) as [[|] | [|] | | [|] ? ?]; try discriminate;
    intros _; simpl; auto.
Qed.

(** X2: a sample with [Ii = 0] never gets a finite index: [calculateHMPI]
    is NaN or an infinity, and the level is Safe or Very High Risk, never
    one in between. *)
Theorem calculateHMPI_zero_Ii (s : Sample) :
  (Ii s =? 0)%float = true ->
  PrimFloat.is_finite (calculateHMPI s) = false
  /\ (getRiskLevel (calculateHMPI s) = Safe
      \/ getRiskLevel (calculateHMPI s) = VeryHighRisk).
Proof.
  rewrite eqb_zero_shape. intros HIi.
  assert (H : not_finite (calculateHMPI s) = true).
  { unfold calculateHMPI, hmpi_index.
    apply div_not_finite. rewrite Math_round_not_finite;
      repeat apply mul_not_finite; now apply div_by_zero. }
  split.
  - now rewrite is_finite_shape, H.
  - now apply getRiskLevel_not_finite.
Qed.

Lemma calculateHMPI_zero_Ii_witness :
  PrimFloat.is_finite (calculateHMPI (mkSample "Lead" 0.09 0 0.7 "2025-01-20")) = false.
Proof.
  apply (calculateHMPI_zero_Ii (mkSample "Lead" 0.09 0 0.7 "2025-01-20")).
  reflexivity.
Defined.

Lemma finite_shape (x : JS.number) :
  PrimFloat.is_finite x = true -> is_a_zero x = false -> finite_nonzero x = true.
Proof.
  rewrite is_finite_shape. unfold not_finite, is_a_zero, finite_nonzero.
  now destruct (Prim2SF x).
Qed.

Lemma zero_div (a b : JS.number) :
  is_a_zero a = true -> finite_nonzero b = true -> is_a_zero (a / b) = true.
Proof.
  unfold is_a_zero, finite_nonzero. rewrite div_spec.
  destruct (Prim2SF a) as [[|] | [|] | | [|] ? ?],
           (Prim2SF b) as [[|] | [|] | | [|] ? ?];
    (discriminate || reflexivity).
Qed.

Lemma zero_mul (a b : JS.number) :
  is_a_zero a = true -> not_finite b = false -> is_a_zero (a * b) = true.
Proof.
  unfold is_a_zero, not_finite. rewrite mul_spec.
  destruct (Prim2SF a) as [[|] | [|] | | [|] ? ?],
           (Prim2SF b) as [[|] | [|] | | [|] ? ?];
    (discriminate || reflexivity).
Qed.

Lemma getRiskLevel_zero (x : JS.number) :
  is_a_zero x = true -> getRiskLevel x = Safe.
Proof.
  unfold is_a_zero, getRiskLevel. rewrite !FloatAxioms.leb_spec.
  change (Prim2SF 100) with (S754_finite false 7036874417766400 (-46)).
  change (Prim2SF 50) with (S754_finite false 7036874417766400 (-47)).
  change (Prim2SF 25) with (S754_finite false 7036874417766400 (-48)).
  change (Prim2SF 10) with (S754_finite false 5629499534213120 (-49)).
  destruct (Prim2SF x) as [[|] | [|] | | [|] ? ?]; try discriminate;
    intros _; reflexivity.
Qed.

(** X3: a sample with [Si = 0], a finite [Ii] other than 0 and a finite
    [Mi] has index 0 and is Safe. *)
Theorem calculateHMPI_zero_Si (s : Sample) :
  (Si s =? 0)%float = true ->
  PrimFloat.is_finite (Ii s) = true -> (Ii s =? 0)%float = false ->
  PrimFloat.is_finite (Mi s) = true ->
  (calculateHMPI s =? 0)%float = true
  /\ getRiskLevel (calculateHMPI s) = Safe.
Proof.
  rewrite !eqb_zero_shape. intros HSi HIi HIi0 HMi.
  assert (Hfin : forall c : JS.number,
             PrimFloat.is_finite c = true -> not_finite c = false).
  { intros c Hc. rewrite is_finite_shape in Hc.
    now destruct (not_finite c). }
  assert (H : is_a_zero (calculateHMPI s) = true).
  { unfold calculateHMPI, hmpi_index.
    assert (Hidx : is_a_zero (Si s / Ii s * Mi s * 100 * 100) = true).
    { repeat apply zero_mul; try reflexivity.
      - apply zero_div; [assumption | now apply finite_shape].
      - now apply Hfin. }
    rewrite (Math_round_zero _ Hidx).
    apply zero_div; [exact Hidx | reflexivity]. }
  split; [exact H | now apply getRiskLevel_zero].
Qed.

Lemma calculateHMPI_zero_Si_witness :
  getRiskLevel (calculateHMPI (mkSample "Lead" 0 0.3 0.7 "2025-01-20")) = Safe.
Proof.
  apply (calculateHMPI_zero_Si (mkSample "Lead" 0 0.3 0.7 "2025-01-20"));
    reflexivity.
Defined.

(** ** Totals of the charts *)

Section Totals.

Context {A : Type}.
Variable key : A -> string.

Lemma indicator_sum (a : string) (ks : list string) :
  NoDup ks ->
  fold_right Z.add 0 (map (fun k => if String.eqb a k then 1 else 0) ks)
  = if in_dec string_dec a ks then 1 else 0.
Proof.
  induction ks as [| k ks IH]; intros Hnd; [reflexivity |].
  inversion Hnd as [| ? ? Hout Hnd']; subst. simpl.
  rewrite (IH Hnd').
  destruct (String.eqb_spec a k) as [-> | Hne].
  - destruct (string_dec k k) as [_ | []]; [| reflexivity].
    now destruct (in_dec string_dec k ks).
  - destruct (string_dec k a) as [E | Hka]; [symmetry in E; contradiction |].
    now destruct (in_dec string_dec a ks).
Qed.

(** Every element is counted under exactly one key. *)
Lemma occurrences_total (ks : list string) (l : list A) :
  NoDup ks ->
  Forall (fun x => In (key x) ks) l ->
  fold_right Z.add 0 (map (fun k => occurrences key k l) ks)
  = Z.of_nat (List.length l).
Proof.
  intros Hnd Hall. induction Hall as [| x l Hx Hall IH]; simpl.
  - unfold occurrences. simpl. induction ks; simpl; [reflexivity |].
    inversion Hnd; subst. auto.
  - assert (Hsplit :
      fold_right Z.add 0 (map (fun k => occurrences key k (x :: l)) ks)
      = fold_right Z.add 0
          (map (fun k => if String.eqb (key x) k then 1 else 0) ks)
        + fold_right Z.add 0 (map (fun k => occurrences key k l) ks)).
    { clear Hnd Hx Hall IH. induction ks as [| k ks IHk]; simpl; [reflexivity |].
      rewrite IHk. unfold occurrences. simpl.
      destruct (String.eqb (key x) k); simpl List.length; lia. }
    rewrite Hsplit, IH, (indicator_sum _ _ Hnd).
    destruct (in_dec string_dec (key x) ks); [lia | contradiction].
Qed.

End Totals.

Lemma sum_counts_Count (ns : list Z) :
  sum_counts (map Count ns) = fold_right Z.add 0 ns.
Proof.
  induction ns as [| n ns IH]; simpl; [reflexivity |].
  unfold sum_counts in *. simpl. now rewrite IH.
Qed.

Lemma sum_counts_perm (cs cs' : list Counter) :
  Permutation cs cs' -> sum_counts cs = sum_counts cs'.
Proof.
  unfold sum_counts.
  induction 1 as [| c l l' _ IH | c c' l | l l' l'' _ IH1 _ IH2]; simpl.
  - reflexivity.
  - now rewrite IH.
  - destruct (counted c), (counted c'); lia.
  - congruence.
Qed.

(** X4: the values of the risk chart add up to the number of samples: each
    sample is counted at exactly one of the five levels. *)
Theorem riskChartData_total (samples : list Sample) :
  sum_counts (map risk_value (riskChartData (samplesWithHMPI samples)))
  = Z.of_nat (List.length samples).
Proof.
  unfold riskChartData. rewrite map_map. simpl risk_value.
  assert (Hvalues :
    map (fun lvl =>
           or_zero (lookup (riskDistribution (samplesWithHMPI samples)) lvl))
        riskLevels
    = map Count
        (map (fun lvl =>
                occurrences (fun s => level (getRiskLevel (calculateHMPI s)))
                  lvl samples)
             riskLevels)).
  { rewrite map_map. apply map_ext_in. intros lvl Hlvl.
    apply risk_value_classified.
    unfold riskLevels in Hlvl. simpl in Hlvl.
    destruct Hlvl as [<- | [<- | [<- | [<- | [<- | []]]]]]; reflexivity. }
  rewrite Hvalues, sum_counts_Count.
  apply occurrences_total.
  - unfold riskLevels. repeat constructor; simpl; intuition discriminate.
  - apply Forall_forall. intros s _.
    change riskLevels with (map level chart_levels).
    apply in_map. apply getRiskLevel_cases.
Qed.

(** X5: when no metal is named like a property of [Object.prototype], the
    counts of the metal chart add up to the number of samples. *)
Theorem metalChartData_total (samples : list Sample) :
  Forall (fun s => inherited (metal s) = false) samples ->
  sum_counts (map metal_count (metalChartData (samplesWithHMPI samples)))
  = Z.of_nat (List.length samples).
Proof.
  intros Hplain.
  destruct (metal_entries samples) as (Hnd & Hcount & Hkeys).
  set (o := metalDistribution (samplesWithHMPI samples)) in *.
  assert (Hcounts : map metal_count (metalChartData (samplesWithHMPI samples))
                    = map snd (JSObject.entries o)).
  { unfold metalChartData. rewrite map_map. apply map_ext. now intros [m c]. }
  rewrite Hcounts.
  rewrite (sum_counts_perm _ _ (Permutation_map snd (entries_perm o))).
  assert (Hmetal : forall m, In m (JSObject.keys o) -> inherited m = false).
  { intros m Hm. apply Hkeys in Hm. destruct Hm as (_ & Hm).
    apply in_map_iff in Hm. destruct Hm as (s & <- & Hs).
    rewrite Forall_forall in Hplain. now apply Hplain. }
  assert (Hsnd : map snd o
                 = map Count
                     (map (fun m => occurrences metal m samples) (JSObject.keys o))).
  { unfold JSObject.keys. rewrite !map_map. apply map_ext_in.
    intros [m c] Hin. simpl.
    apply (Hcount m c).
    - apply Hmetal. exact (in_map fst _ _ Hin).
    - now apply In_get. }
  rewrite Hsnd, sum_counts_Count.
  apply occurrences_total; [exact Hnd |].
  apply Forall_forall. intros s Hs. apply Hkeys. split.
  - apply inherited__proto__. rewrite Forall_forall in Hplain. now apply Hplain.
  - now apply in_map.
Qed.

Lemma metalChartData_total_witness :
  sum_counts (map metal_count (metalChartData (samplesWithHMPI [lead10; lead20; lead30])))
  = 3.
Proof.
  apply (metalChartData_total [lead10; lead20; lead30]).
  repeat constructor.
Defined.

(** X6: every entry of the metal chart stands for at least one sample, so
    the average never divides by zero. *)
Theorem metalChartData_groups_not_empty (samples : list Sample) (e : MetalChartEntry) :
  In e (metalChartData (samplesWithHMPI samples)) ->
  of_metal (metal_name e) samples <> [].
Proof.
  intros He.
  destruct (metal_entries samples) as (_ & _ & Hkeys).
  assert (Hname : In (metal_name e)
                    (JSObject.keys (metalDistribution (samplesWithHMPI samples)))).
  { apply (in_map metal_name) in He. rewrite metal_names in He.
    unfold JSObject.keys in *.
    exact (Permutation_in _ (Permutation_map fst (entries_perm _)) He). }
  apply Hkeys in Hname. destruct Hname as (_ & Hin).
  apply in_map_iff in Hin. destruct Hin as (s & Hs & Hin).
  intros Hempty.
  assert (Hs' : In s (of_metal (metal_name e) samples)).
  { unfold of_metal. apply filter_In. split; [exact Hin |].
    rewrite Hs. apply String.eqb_refl. }
  rewrite Hempty in Hs'. exact Hs'.
Qed.

Lemma metalChartData_groups_not_empty_witness :
  of_metal "Lead" [lead10; lead20] <> [].
Proof.
  apply (metalChartData_groups_not_empty [lead10; lead20]
           {| metal_name := "Lead"; metal_count := Count 2; avgHMPI := 15 |}).
  left. reflexivity.
Defined.

(** *** NaN in an average *)

Lemma add_nan_l (a b : JS.number) :
  PrimFloat.is_nan a = true -> PrimFloat.is_nan (a + b) = true.
Proof.
  rewrite !is_nan_shape, add_spec. intros ->.
  now destruct (Prim2SF b).
Qed.

Lemma add_nan_r (a b : JS.number) :
  PrimFloat.is_nan b = true -> PrimFloat.is_nan (a + b) = true.
Proof.
  rewrite !is_nan_shape, add_spec. intros ->.
  now destruct (Prim2SF a) as [[|] | [|] | | ? ? ?].
Qed.

Lemma div_nan_l (a b : JS.number) :
  PrimFloat.is_nan a = true -> PrimFloat.is_nan (a / b) = true.
Proof.
  rewrite !is_nan_shape, div_spec. intros ->.
  now destruct (Prim2SF b).
Qed.

Lemma sum_nan_acc (xs : list JS.number) (acc : JS.number) :
  PrimFloat.is_nan acc = true ->
  PrimFloat.is_nan (fold_left PrimFloat.add xs acc) = true.
Proof.
  revert acc. induction xs as [| x xs IH]; intros acc Hacc; [exact Hacc |].
  simpl. apply IH. now apply add_nan_l.
Qed.

Lemma sum_nan (xs : list JS.number) (acc : JS.number) :
  Exists (fun x => PrimFloat.is_nan x = true) xs ->
  PrimFloat.is_nan (fold_left PrimFloat.add xs acc) = true.
Proof.
  intros Hex. revert acc.
  induction Hex as [x xs Hx | x xs _ IH]; intros acc; simpl.
  - apply sum_nan_acc. now apply add_nan_r.
  - apply IH.
Qed.

(** X7: one sample whose index is NaN makes the average of its metal
    NaN. *)
Theorem metalChartData_NaN_average
    (samples : list Sample) (e : MetalChartEntry) (s : Sample) :
  In e (metalChartData (samplesWithHMPI samples)) ->
  In s samples -> metal s = metal_name e ->
  PrimFloat.is_nan (calculateHMPI s) = true ->
  PrimFloat.is_nan (avgHMPI e) = true.
Proof.
  intros He Hs Hmetal Hnan.
  unfold metalChartData in He. apply in_map_iff in He.
  destruct He as ([m c] & <- & _). simpl in *.
  rewrite with_metal_scored, sum_hmpi_scored.
  apply div_nan_l, sum_nan.
  apply Exists_exists. exists (calculateHMPI s). split; [| exact Hnan].
  apply in_map. unfold of_metal. apply filter_In. split; [exact Hs |].
  rewrite Hmetal. apply String.eqb_refl.
Qed.

Lemma metalChartData_NaN_average_witness :
  PrimFloat.is_nan
    (avgHMPI {| metal_name := "Lead"; metal_count := Count 2; avgHMPI := nan |})
  = true.
Proof.
  apply (metalChartData_NaN_average
           [lead10; mkSample "Lead" 0 0 1 "2025-01-01"] _
           (mkSample "Lead" 0 0 1 "2025-01-01")).
  - left. reflexivity.
  - right. left. reflexivity.
  - reflexivity.
  - reflexivity.
Defined.

(** ** Order of the metal chart *)

Lemma first_seen_In (k : string) (l : list string) :
  In k (first_seen l) <-> In k l.
Proof.
  induction l as [| x l IH]; simpl; [tauto |].
  rewrite filter_In, IH.
  destruct (String.eqb_spec k x) as [-> | Hne]; simpl.
  - tauto.
  - split; [tauto |]. intros [-> | H]; [contradiction | tauto].
Qed.

Lemma filter_snoc_out {A : Type} (f : A -> bool) (l : list A) (x : A) :
  List.filter f (l ++ [x]) = List.filter f l ++ (if f x then [x] else []).
Proof. rewrite filter_app. reflexivity. Qed.

Lemma first_seen_snoc (l : list string) (k : string) :
  first_seen (l ++ [k])
  = if in_dec string_dec k l then first_seen l else first_seen l ++ [k].
Proof.
  induction l as [| x l IH]; simpl; [reflexivity |].
  rewrite IH.
  destruct (string_dec x k) as [-> | Hne].
  - destruct (in_dec string_dec k l); [reflexivity |].
    rewrite filter_snoc_out, String.eqb_refl. simpl. now rewrite app_nil_r.
  - destruct (in_dec string_dec k l); [reflexivity |].
    rewrite filter_snoc_out.
    destruct (String.eqb_spec k x) as [-> | _]; [contradiction | reflexivity].
Qed.

(** The keys of a counter object are the keys counted, other than
    [__proto__], in the order of their first occurrence. *)
Lemma count_keys_order {A : Type} (key : A -> string) (l : list A) :
  Forall (fun x => key x <> "__proto__") l ->
  JSObject.keys (fold_left (count_step key) l JSObject.empty)
  = first_seen (map key l).
Proof.
  induction l as [| x l IH] using rev_ind; intros Hall; [reflexivity |].
  apply Forall_app in Hall. destruct Hall as (Hl & Hx).
  inversion Hx as [| ? ? Hkx _]; subst.
  rewrite fold_left_app, map_app. simpl.
  rewrite first_seen_snoc, <- (IH Hl).
  set (r := fold_left (count_step key) l JSObject.empty) in *.
  unfold count_step at 1, assign.
  destruct (String.eqb_spec (key x) "__proto__") as [E | _]; [contradiction |].
  rewrite keys_set.
  destruct (in_dec string_dec (key x) (map key l)) as [Hin | Hout].
  - rewrite <- first_seen_In, <- (IH Hl) in Hin.
    destruct (JSObject.get r (key x)) eqn:E; [reflexivity |].
    apply get_None_keys in E. contradiction.
  - rewrite <- first_seen_In, <- (IH Hl) in Hout.
    apply get_None_keys in Hout. now rewrite Hout.
Qed.

Lemma entries_plain {V : Type} (o : JSObject.t V) :
  Forall (fun p => JSObject.array_index (fst p) = None) o ->
  JSObject.entries o = o.
Proof.
  intros Hall. unfold JSObject.entries.
  assert (H1 : List.filter JSObject.is_index o = []).
  { induction Hall as [| p o Hp _ IH]; [reflexivity |].
    simpl. unfold JSObject.is_index at 1. now rewrite Hp. }
  assert (H2 : List.filter (fun p => negb (JSObject.is_index p)) o = o).
  { clear H1. induction Hall as [| p o Hp _ IH]; [reflexivity |].
    simpl. unfold JSObject.is_index at 1. rewrite Hp. simpl. now f_equal. }
  rewrite H1, H2. reflexivity.
Qed.

(** X8: when no metal is an array index (the decimal form of an integer
    below 2^32 - 1) or the name of a property of [Object.prototype], the
    entries of the metal chart are the distinct metals in the order of their
    first sample. *)
Theorem metalChartData_order (samples : list Sample) :
  Forall (fun s => plain_key (metal s) = true) samples ->
  map metal_name (metalChartData (samplesWithHMPI samples))
  = first_seen (map metal samples).
Proof.
  intros Hplain.
  assert (Hkeys : JSObject.keys (metalDistribution (samplesWithHMPI samples))
                  = first_seen (map metal samples)).
  { change (metalDistribution (samplesWithHMPI samples))
      with (fold_left (count_step (fun s => metal (sample s)))
              (samplesWithHMPI samples) JSObject.empty).
    rewrite count_keys_order.
    - unfold samplesWithHMPI. now rewrite map_map.
    - unfold samplesWithHMPI. apply Forall_map. simpl.
      apply (Forall_impl _ (P := fun s => plain_key (metal s) = true));
        [| exact Hplain].
      intros s Hs E. rewrite E in Hs. discriminate Hs. }
  rewrite metal_names, entries_plain; [exact Hkeys |].
  apply Forall_forall. intros [m c] Hin. simpl.
  assert (Hm : In m (first_seen (map metal samples))).
  { rewrite <- Hkeys. exact (in_map fst _ _ Hin). }
  apply first_seen_In, in_map_iff in Hm. destruct Hm as (s & <- & Hs).
  rewrite Forall_forall in Hplain. specialize (Hplain s Hs).
  unfold plain_key in Hplain.
  now destruct (JSObject.array_index (metal s)).
Qed.

Lemma metalChartData_order_witness :
  map metal_name
    (metalChartData
       (samplesWithHMPI
          [mkSample "Lead" 1 1 1 ""; mkSample "Arsenic" 1 1 1 "";
           mkSample "Lead" 1 1 1 ""]))
  = ["Lead"; "Arsenic"].
Proof.
  apply (metalChartData_order
           [mkSample "Lead" 1 1 1 ""; mkSample "Arsenic" 1 1 1 "";
            mkSample "Lead" 1 1 1 ""]).
  repeat constructor.
Defined.

(** Array-index metals come first, in ascending numeric order. *)
Example metalChartData_order_of_indices :
  map metal_name
    (metalChartData
       (samplesWithHMPI
          [mkSample "Lead" 1 1 1 ""; mkSample "82" 1 1 1 "";
           mkSample "33" 1 1 1 ""]))
  = ["33"; "82"; "Lead"].
Proof. reflexivity. Qed.

(** ** The risk chart and the order of the samples *)

Lemma occurrences_perm {A : Type} (key : A -> string) (k : string) (l l' : list A) :
  Permutation l l' -> occurrences key k l = occurrences key k l'.
Proof.
  intros Hperm. unfold occurrences. f_equal.
  induction Hperm as [| x l l' _ IH | x y l | l l' l'' _ IH1 _ IH2]; simpl.
  - reflexivity.
  - destruct (String.eqb (key x) k); simpl; now rewrite IH.
  - destruct (String.eqb (key x) k), (String.eqb (key y) k); reflexivity.
  - congruence.
Qed.

(** X9: the risk chart does not depend on the order of the samples. *)
Theorem riskChartData_permutation (samples samples' : list Sample) :
  Permutation samples samples' ->
  riskChartData (samplesWithHMPI samples)
  = riskChartData (samplesWithHMPI samples').
Proof.
  intros Hperm.
  assert (Hclass : forall lvl,
             classified_at lvl samples = classified_at lvl samples').
  { intros lvl.
    exact (occurrences_perm
             (fun s => level (getRiskLevel (calculateHMPI s))) lvl _ _ Hperm). }
  unfold riskChartData, riskLevels.
  change ["Safe"; "Low Risk"; "Moderate Risk"; "High Risk"; "Very High Risk"]
    with (map level chart_levels).
  rewrite !map_map. apply map_ext_in. intros lvl Hlvl.
  rewrite !(risk_value_classified _ _ (level_not_inherited lvl Hlvl)).
  rewrite !(risk_color_classified _ lvl Hlvl).
  now rewrite Hclass.
Qed.

Lemma riskChartData_permutation_witness :
  riskChartData (samplesWithHMPI [lead10; lead30])
  = riskChartData (samplesWithHMPI [lead30; lead10]).
Proof. apply riskChartData_permutation. apply perm_swap. Defined.

(** ** Time series of sorted input *)

(** X10: samples that come in ascending order of date, with dates that
    parse, keep their order in the time series. *)
Theorem timeSeriesData_of_sorted
    (getTime : string -> option Z) (scored : list ScoredSample) :
  Forall (valid_date getTime) scored ->
  StronglySorted (time_le getTime) (map time_point scored) ->
  timeSeriesData getTime scored = map time_point scored.
Proof.
  intros Hvalid Hsorted. unfold timeSeriesData. f_equal.
  induction scored as [| x l IH]; [reflexivity |].
  inversion Hvalid as [| ? ? Hx Hl]; subst.
  simpl in Hsorted. inversion Hsorted as [| ? ? Hs Hall]; subst.
  simpl. rewrite (IH Hl Hs).
  destruct l as [| y l']; [reflexivity |]. simpl.
  inversion Hall as [| ? ? Hxy _]; subst.
  unfold time_le in Hxy. simpl in Hxy.
  unfold sort_compare, by_date.
  destruct (getTime (date (sample x))); [| contradiction].
  destruct (getTime (date (sample y))); [| contradiction].
  destruct (Z.ltb_spec 0 (z - z0)); [lia | reflexivity].
Qed.

Lemma timeSeriesData_of_sorted_witness :
  timeSeriesData IsoDate.getTime (samplesWithHMPI [lead20; lead10; lead30])
  = map time_point (samplesWithHMPI [lead20; lead10; lead30]).
Proof.
  apply timeSeriesData_of_sorted.
  - repeat constructor; discriminate.
  - repeat constructor; vm_compute; discriminate.
Defined.

(** ** The analytics page *)

Section PageFacts.

Context {Store : Type}.
Variable supabase : Query -> Store -> Response * Store.

(** What one run of [loadData] does. *)
Lemma loadData_run (projectId : string) (st : PageState) (w : World Store) :
  let (projects, s1) := supabase (Select "projects" "*") (store w) in
  let (samples, s2) := supabase (Select "samples" "*") s1 in
  loadData supabase projectId st w
  = ({| project := find (field_is "id" projectId) (rows_or_empty projects);
        projectSamples :=
          List.filter (field_is "projectId" projectId) (rows_or_empty samples);
        loading := false |},
     {| store := s2;
        console := console w
                   ++ logged "Error fetching projects:" projects
                   ++ logged "Error fetching samples:" samples |}).
Proof.
  destruct w as [s0 log].
  unfold loadData, loadData_try, fetchProjects, fetchSamples,
    bind, await, ret, console_error.
  simpl store. simpl console.
  destruct (supabase (Select "projects" "*") s0) as [[ps | ep] s1]; simpl;
    destruct (supabase (Select "samples" "*") s1) as [[ss | es] s2]; simpl;
    rewrite ?app_nil_r, <- ?app_assoc; reflexivity.
Qed.

(** X11: [loadData] asks for the projects and then, of the store as that
    query left it, for the samples.  Each failed query is logged under its
    own message and counts as an empty list; the project is the first
    fetched record whose [id] is the given one, the samples are the fetched
    records whose [projectId] is the given one, in their order; [loading]
    ends [false] and what the state held before is gone. *)
Theorem loadData_outcome (projectId : string) (st : PageState) (w : World Store) :
  let (projects, s1) := supabase (Select "projects" "*") (store w) in
  let (samples, s2) := supabase (Select "samples" "*") s1 in
  loadData supabase projectId st w
  = ({| project := find (field_is "id" projectId) (rows_or_empty projects);
        projectSamples :=
          List.filter (field_is "projectId" projectId) (rows_or_empty samples);
        loading := false |},
     {| store := s2;
        console := console w
                   ++ logged "Error fetching projects:" projects
                   ++ logged "Error fetching samples:" samples |}).
Proof.
  destruct w as [s0 log].
  unfold loadData, loadData_try, fetchProjects, fetchSamples,
    bind, await, ret, console_error.
  simpl store. simpl console.
  destruct (supabase (Select "projects" "*") s0) as [[ps | ep] s1]; simpl;
    destruct (supabase (Select "samples" "*") s1) as [[ss | es] s2]; simpl;
    rewrite ?app_nil_r, <- ?app_assoc; reflexivity.
Qed.

(** X13: the analytics view is shown only for a project whose [id] is the
    requested one, and only with samples whose [projectId] is that id. *)
Theorem loadData_view_of_project
    (projectId : string) (st : PageState) (w : World Store)
    (p : Row) (rows : list Row) :
  render (fst (loadData supabase projectId st w)) = Analytics p rows ->
  field_is "id" projectId p = true
  /\ Forall (fun row => field_is "projectId" projectId row = true) rows.
Proof.
  pose proof (loadData_run projectId st w) as H.
  destruct (supabase (Select "projects" "*") (store w)) as [projects s1].
  destruct (supabase (Select "samples" "*") s1) as [samples s2].
  rewrite H. unfold render. simpl.
  destruct (find (field_is "id" projectId) (rows_or_empty projects)) as [p' |] eqn:E;
    [| discriminate].
  intros [= <- <-]. split.
  - apply find_some in E. tauto.
  - apply Forall_forall. intros row Hrow. apply filter_In in Hrow. tauto.
Qed.

(** X14: when the projects query fails, the page shows "Project Not Found",
    as it does for an id that no project has; the failure is in the
    console. *)
Theorem loadData_fetch_failure_not_found
    (projectId : string) (st : PageState) (w : World Store)
    (e : PostgrestError) (s1 : Store) :
  supabase (Select "projects" "*") (store w) = (Failure e, s1) ->
  let r := loadData supabase projectId st w in
  render (fst r) = ProjectNotFound
  /\ In ("Error fetching projects:", e) (console (snd r)).
Proof.
  intros Hfail. pose proof (loadData_run projectId st w) as H.
  rewrite Hfail in H.
  destruct (supabase (Select "samples" "*") s1) as [samples s2].
  cbv zeta. rewrite H. simpl. split; [reflexivity |].
  apply in_or_app. right. now left.
Qed.

Lemma loadData_loading (projectId : string) (st : PageState) (w : World Store) :
  loading (fst (loadData supabase projectId st w)) = false.
Proof.
  pose proof (loadData_run projectId st w) as H.
  destruct (supabase (Select "projects" "*") (store w)) as [projects s1].
  destruct (supabase (Select "samples" "*") s1) as [samples s2].
  now rewrite H.
Qed.

(** X15: from the initial state, the effect takes the page off the spinner
    exactly when the project id is not the empty string. *)
Theorem effect_leaves_spinner (projectId : string) (w : World Store) :
  render (fst (effect supabase projectId initialState w)) = Spinner
  <-> projectId = "".
Proof.
  unfold effect.
  destruct (String.eqb_spec projectId "") as [-> | Hne].
  - split; reflexivity.
  - split; [| contradiction].
    pose proof (loadData_loading projectId initialState w) as Hload.
    unfold render. rewrite Hload.
    destruct (project (fst (loadData supabase projectId initialState w)));
      discriminate.
Qed.

End PageFacts.

(** ** The analytics page: a fetch that rejects *)

Section LoadDataFacts.

Context {Store : Type}.
Variables fetch_projects fetch_samples : Async Store (list Row).

(** X12: whatever the two fetches do, [loadData] ends with [loading]
    [false].  When both return, the project and the samples are both
    replaced.  When one rejects, what comes after it in the [try] block is
    skipped (a rejected projects fetch is not followed by the samples
    fetch), the project and the samples both keep what they held, and the
    error is logged under "Failed to fetch analytics data". *)
Theorem loadData_with_settles (projectId : string) (st : PageState) (w : World Store) :
  let r := loadData_with fetch_projects fetch_samples projectId st w in
  let kept := {| project := project st;
                 projectSamples := projectSamples st;
                 loading := false |} in
  loading (fst r) = false
  /\ match fetch_projects w with
     | (Thrown error, w1) =>
         r = (kept,
              {| store := store w1;
                 console := console w1 ++ [("Failed to fetch analytics data", error)] |})
     | (Returned allProjects, w1) =>
         match fetch_samples w1 with
         | (Thrown error, w2) =>
             r = (kept,
                  {| store := store w2;
                     console :=
                       console w2 ++ [("Failed to fetch analytics data", error)] |})
         | (Returned allSamples, w2) =>
             r = ({| project := find (field_is "id" projectId) allProjects;
                     projectSamples :=
                       List.filter (field_is "projectId" projectId) allSamples;
                     loading := false |},
                  w2)
         end
     end.
Proof.
  unfold loadData_with, bind, ret, console_error. cbv zeta.
  destruct (fetch_projects w) as [[allProjects | e1] w1]; simpl.
  - destruct (fetch_samples w1) as [[allSamples | e2] w2]; simpl;
      split; reflexivity.
  - split; reflexivity.
Qed.

End LoadDataFacts.

(** [loadData] is [loadData_with] at the two fetches of [utils/data.ts]. *)
Lemma loadData_with_fetches {Store : Type}
    (supabase : Query -> Store -> Response * Store)
    (projectId : string) (st : PageState) (w : World Store) :
  loadData supabase projectId st w
  = loadData_with (fetchProjects supabase) (fetchSamples supabase) projectId st w.
Proof. reflexivity. Qed.

(** A projects query that rejects on a page that showed project p1: the
    samples are not asked for, the page goes on showing p1 with the samples
    it had, and the console holds the one entry of the [catch] block. *)
Example loadData_with_rejected_projects :
  let shown := {| project := Some project_p1; projectSamples := []; loading := false |} in
  let r := loadData_with (throw timeout_error) (fetchSamples TableStore.run) "p2" shown
             {| store := store0; console := [] |} in
  render (fst r) = Analytics project_p1 []
  /\ snd r = {| store := store0;
                console := [("Failed to fetch analytics data", timeout_error)] |}.
Proof. split; reflexivity. Qed.

Lemma loadData_view_of_project_witness :
  field_is "id" "p1" project_p1 = true
  /\ Forall (fun row => field_is "projectId" "p1" row = true) [].
Proof.
  apply (loadData_view_of_project TableStore.run "p1" initialState
           {| store := store0; console := [] |}).
  reflexivity.
Defined.

Lemma loadData_fetch_failure_not_found_witness :
  render (fst (loadData offline "p1" initialState {| store := tt; console := [] |}))
  = ProjectNotFound
  /\ In ("Error fetching projects:", timeout_error)
       (console (snd (loadData offline "p1" initialState
                        {| store := tt; console := [] |}))).
Proof.
  apply (loadData_fetch_failure_not_found offline "p1" initialState
           {| store := tt; console := [] |} timeout_error tt).
  reflexivity.
Defined.
